(** * HandTracker server: the user directory ([server/src/data/users.ts])

    A shallow embedding of the seven operations of [users.ts] and the
    properties of its specification.

    The operations are [async] functions that talk to three collaborators:
    the [validator] package, the [bcrypt] package and a MongoDB collection.
    None of them is code of the repository, so they are parameters of the
    development: the operations are written once, over any validator, any
    bcrypt and any collection, as computations in a small state-and-exception
    monad whose state is the world the function runs in (the store, the
    number of salts drawn so far and the trace of calls made so far). *)

From Stdlib Require Import String Ascii List NArith Bool Arith Lia.
Import ListNotations.
Open Scope string_scope.

Set Implicit Arguments.

(** ** Data model *)

(** A BSON ObjectId is a 12-byte value; it is kept as the number it encodes. *)
Definition ObjectId := N.

(** The [_id] field of a [User] object holds the store's native identifier
    until [cleanUserObject] overwrites it with a string. *)
Inductive Id : Type :=
| ObjId (o : ObjectId)
| StrId (s : string).

(** Modelled from the spec: [model/user.ts] is not among the sources.  The
    fields are those of the specification's User entity, which are the ones
    [users.ts] reads and writes.  [_id] is absent on the object [createUser]
    builds, and [articles] is absent until the first [$addToSet]; an absent
    [articles] is the empty list here. *)
Record User : Type := mkUser {
  _id : option Id;
  email : string;
  username : string;
  password : string;
  articles : list string
}.

Definition set_id (i : option Id) (u : User) : User :=
  {| _id := i; email := email u; username := username u;
     password := password u; articles := articles u |}.

Definition set_articles (l : list string) (u : User) : User :=
  {| _id := _id u; email := email u; username := username u;
     password := password u; articles := l |}.

(** The query documents the module builds: [{_id: o}], [{email: e}],
    [{username: n}] and [{}]. *)
Inductive Filter : Type :=
| ById (o : ObjectId)
| ByEmail (e : string)
| ByUsername (n : string)
| Everything.

Record InsertOneResult : Type := {
  acknowledged : bool;
  insertedId : option ObjectId
}.

Record DeleteResult : Type := { deletedCount : nat }.

Record UpdateResult : Type := { matchedCount : nat; modifiedCount : nat }.

(** The collection, as the module uses it.  Every call may change the state of
    the store, reads included: the store is shared with other clients. *)
Record Collection (S : Type) : Type := {
  coll_findOne : Filter -> S -> option User * S;
  coll_find : Filter -> S -> list User * S;
  coll_insertOne : User -> S -> InsertOneResult * S;
  coll_deleteOne : Filter -> S -> DeleteResult * S;
  coll_addToSet : Filter -> string -> S -> UpdateResult * S
}.

(** ** What the module throws and logs *)

Inductive Field : Type := FEmail | FUsername | FPassword.

(** Modelled from the spec: [utils/errorMessages.ts] is not among the sources.
    Each of its functions is a constructor applied to the arguments of the
    call; [notValid sig v f] stands for the inline template
    [`${sig}: '${v}' is not a valid ${f}`]. *)
Inductive Message : Type :=
| notValid (sig value : string) (f : Field)
| userWithEmailAlreadyExists (sig em : string)
| userNotCreated (sig em : string)
| userSuccessfullyCreated (sig em : string)
| objectIdNotValid (sig id : string)
| userNotFound (sig id : string)
| userRetrievedFromDatabase (sig id : string)
| allUsersRetrievedFromDatabase (sig : string)
| userNotDeletedFromDatabase (sig id : string)
| articleNotAddedToUser (sig userId articleId : string)
| articleAddedToUser (sig userId articleId : string)
| validatedUserWithEmail (sig em : string)
| userWithEmailNotFound (sig em : string)
| validatedUserWithUsername (sig name : string)
| userWithUsernameNotFound (sig name : string).

(** A rejected promise carries either one of the messages above or the
    [TypeError] of the JavaScript runtime (a property read on [null] or
    [undefined]). *)
Inductive Thrown : Type :=
| ThrowMessage (m : Message)
| TypeError.

Inductive ErrorClass : Type :=
| ValidationError
| ConflictError
| NotFoundError
| AuthenticationError
| PersistenceError.

(** Modelled from the spec: the error taxonomy of its section 7.  The code
    throws plain strings; the class of each is the one the specification
    gives to the situation it is thrown in.  Success messages and the
    runtime's [TypeError] belong to no class. *)
Definition classify (t : Thrown) : option ErrorClass :=
  match t with
  | ThrowMessage (notValid _ _ _) => Some ValidationError
  | ThrowMessage (objectIdNotValid _ _) => Some ValidationError
  | ThrowMessage (userWithEmailAlreadyExists _ _) => Some ConflictError
  | ThrowMessage (userNotFound _ _) => Some NotFoundError
  | ThrowMessage (userWithEmailNotFound _ _) => Some AuthenticationError
  | ThrowMessage (userWithUsernameNotFound _ _) => Some AuthenticationError
  | ThrowMessage (userNotCreated _ _) => Some PersistenceError
  | ThrowMessage (userNotDeletedFromDatabase _ _) => Some PersistenceError
  | ThrowMessage (articleNotAddedToUser _ _ _) => Some PersistenceError
  | _ => None
  end.

(** The field and the value a validation message names. *)
Definition names (t : Thrown) (f : Field) (v : string) : Prop :=
  exists sig, t = ThrowMessage (notValid sig v f).

(** ** Effects *)

(** One entry per call that leaves the module. *)
Inductive Event : Type :=
| EvGetUserCollection
| EvFindOne (f : Filter)
| EvFind (f : Filter)
| EvInsertOne (u : User)
| EvDeleteOne (f : Filter)
| EvUpdateOne (f : Filter) (article : string)
| EvBcryptHash (data : string) (rounds : nat)
| EvBcryptCompare (data encrypted : string)
| EvConsoleLog (m : Message).

Definition is_store_access (e : Event) : bool :=
  match e with
  | EvGetUserCollection | EvFindOne _ | EvFind _ | EvInsertOne _
  | EvDeleteOne _ | EvUpdateOne _ _ => true
  | _ => false
  end.

Definition is_store_write (e : Event) : bool :=
  match e with
  | EvInsertOne _ | EvDeleteOne _ | EvUpdateOne _ _ => true
  | _ => false
  end.

Definition is_rehash (e : Event) : bool :=
  match e with
  | EvBcryptHash _ _ => true
  | _ => false
  end.

(** An event a credential loop may add to the trace: no hashing, no store
    access, and if it is a call to [bcrypt.compare] then its two arguments are
    [data_of c] and [encrypted_of c] for one of the candidates [c]. *)
Definition compares_as (data_of encrypted_of : User -> string) (users : list User)
  (e : Event) : Prop :=
  is_rehash e = false /\ is_store_access e = false
  /\ forall d enc, e = EvBcryptCompare d enc ->
       exists c, In c users /\ d = data_of c /\ enc = encrypted_of c.

Record World (S : Type) : Type := mkWorld {
  store : S;
  drawn : nat;
  trace : list Event
}.

Inductive Result (A : Type) : Type :=
| Return (a : A)
| Throw (t : Thrown).

Arguments Throw {A} t.

Definition M (S A : Type) : Type := World S -> Result A * World S.

Definition ret {S A} (a : A) : M S A := fun w => (Return a, w).

Definition throw {S A} (m : Message) : M S A := fun w => (Throw (ThrowMessage m), w).

Definition bind {S A B} (c : M S A) (k : A -> M S B) : M S B :=
  fun w =>
    match c w with
    | (Return a, w') => k a w'
    | (Throw t, w') => (Throw t, w')
    end.

Definition lift {S A} (r : Result A) : M S A := fun w => (r, w).

Notation "x <- c ;; k" := (bind c (fun x => k))
  (at level 61, c at next level, right associativity).
Notation "c ;;; k" := (bind c (fun _ => k))
  (at level 61, right associativity).

Definition emit {S} (e : Event) (w : World S) : World S :=
  {| store := store w; drawn := drawn w; trace := trace w ++ [e] |}.

Definition is_some {A} (o : option A) : bool :=
  match o with Some _ => true | None => false end.

(** ** The collaborators *)

(** The [validator] package. *)
Class Validator : Type := {
  trim : string -> string;
  isEmail : string -> bool;
  isAlphanumeric : string -> bool;
  isStrongPassword : string -> bool
}.

(** The [bcrypt] package.  [bcrypt.hash data rounds] draws a salt and derives
    the hash from it: [gensalt n] is the [n]-th salt the process draws and
    [hashpw salt rounds data] the hash derived with it.  [checkpw data
    encrypted] is the answer of [bcrypt.compare data encrypted]. *)
Class Bcrypt : Type := {
  gensalt : nat -> string;
  hashpw : string -> nat -> string -> string;
  checkpw : string -> string -> bool
}.

(** [bcrypt] reads the first 72 bytes of the data it is given and ignores
    the rest. *)
Definition bcrypt_key (data : string) : string := substring 0 72 data.

(** [ObjectId] of the [mongodb] package: [ObjectId.isValid], [new ObjectId]
    on a string, and [toString] (the hexadecimal form). *)
Class Bson : Type := {
  ObjectId_isValid : string -> bool;
  ObjectId_new : string -> ObjectId;
  toHexString : ObjectId -> string
}.

(** [utils/helpers.ts] is not among the sources; [getFunctionSignature] is
    taken as it comes. *)
Class Helpers : Type := {
  getFunctionSignature : string -> string
}.

(** ** [users.ts] *)

Section Operations.

Context {V : Validator} {B : Bcrypt} {O : Bson} {H : Helpers}.
Context {St : Type} (coll : Collection St).

(** A call to the store: it is recorded in the trace, answers, and leaves the
    store in its new state. *)
Definition call {A} (e : Event) (op : St -> A * St) : M St A :=
  fun w =>
    (Return (fst (op (store w))),
     {| store := snd (op (store w)); drawn := drawn w; trace := trace w ++ [e] |}).

Definition getUserCollection : M St unit :=
  fun w => (Return tt, emit EvGetUserCollection w).

Definition findOne (f : Filter) : M St (option User) :=
  call (EvFindOne f) (coll_findOne coll f).

Definition find_toArray (f : Filter) : M St (list User) :=
  call (EvFind f) (coll_find coll f).

Definition insertOne (u : User) : M St InsertOneResult :=
  call (EvInsertOne u) (coll_insertOne coll u).

Definition deleteOne (f : Filter) : M St DeleteResult :=
  call (EvDeleteOne f) (coll_deleteOne coll f).

Definition updateOne_addToSet (f : Filter) (article : string) : M St UpdateResult :=
  call (EvUpdateOne f article) (coll_addToSet coll f article).

Definition console_log (m : Message) : M St unit :=
  fun w => (Return tt, emit (EvConsoleLog m) w).

Definition bcrypt_hash (data : string) (rounds : nat) : M St string :=
  fun w =>
    (Return (hashpw (gensalt (drawn w)) rounds data),
     {| store := store w; drawn := Datatypes.S (drawn w);
        trace := trace w ++ [EvBcryptHash data rounds] |}).

Definition bcrypt_compare (data encrypted : string) : M St bool :=
  fun w => (Return (checkpw data encrypted), emit (EvBcryptCompare data encrypted) w).

(** [_id.toString()] *)
Definition toString (i : Id) : string :=
  match i with
  | ObjId o => toHexString o
  | StrId s => s
  end.

(** [cleanUserObject]: reading [_id] of [null], or calling [toString] on an
    absent [_id], is a [TypeError]. *)
Definition cleanUserObject (userObject : option User) : Result User :=
  match userObject with
  | None => Throw TypeError
  | Some u =>
      match _id u with
      | None => Throw TypeError
      | Some i => Return (set_id (Some (StrId (toString i))) u)
      end
  end.

Fixpoint cleanUserObjects (userObjects : list User) : Result (list User) :=
  match userObjects with
  | [] => Return []
  | u :: rest =>
      match cleanUserObject (Some u) with
      | Throw t => Throw t
      | Return u' =>
          match cleanUserObjects rest with
          | Throw t => Throw t
          | Return rest' => Return (u' :: rest')
          end
      end
  end.

Definition createUser (email username password : string) : M St User :=
  let functionSignature := getFunctionSignature "CreateUser" in
  let email := trim email in
  let username := trim username in
  if negb (isEmail email) then throw (notValid functionSignature email FEmail)
  else if negb (isAlphanumeric username) then throw (notValid functionSignature username FUsername)
  else if negb (isStrongPassword password) then throw (notValid functionSignature password FPassword)
  else
    hashed <- bcrypt_hash password 16 ;;
    let user := {| _id := None; email := email; username := username;
                   password := hashed; articles := [] |} in
    getUserCollection ;;;
    emailInUse <- findOne (ByEmail email) ;;
    if is_some emailInUse then throw (userWithEmailAlreadyExists functionSignature email)
    else
      output <- insertOne user ;;
      match acknowledged output, insertedId output with
      | true, Some newId =>
          console_log (userSuccessfullyCreated functionSignature email) ;;;
          reread <- findOne (ById newId) ;;
          lift (cleanUserObject reread)
      | _, _ => throw (userNotCreated functionSignature email)
      end.

Definition getUserById (id : string) : M St User :=
  let functionSignature := getFunctionSignature "GetUserById" in
  if negb (ObjectId_isValid id) then throw (objectIdNotValid functionSignature id)
  else
    getUserCollection ;;;
    user <- findOne (ById (ObjectId_new id)) ;;
    match user with
    | None => throw (userNotFound functionSignature id)
    | Some u =>
        console_log (userRetrievedFromDatabase functionSignature id) ;;;
        lift (cleanUserObject (Some u))
    end.

Definition getAllUsers : M St (list User) :=
  let functionSignature := getFunctionSignature "GetAllUsers" in
  getUserCollection ;;;
  users <- find_toArray Everything ;;
  console_log (allUsersRetrievedFromDatabase functionSignature) ;;;
  lift (cleanUserObjects users).

Definition deleteUserById (id : string) : M St User :=
  let functionSignature := getFunctionSignature "DeleteUserById" in
  if negb (ObjectId_isValid id) then throw (objectIdNotValid functionSignature id)
  else
    getUserCollection ;;;
    user <- findOne (ById (ObjectId_new id)) ;;
    match user with
    | None => throw (userNotFound functionSignature id)
    | Some u =>
        result <- deleteOne (ById (ObjectId_new id)) ;;
        if negb (Nat.eqb (deletedCount result) 1) then
          throw (userNotDeletedFromDatabase functionSignature id)
        else lift (cleanUserObject (Some u))
    end.

Definition addArticleToAuthor (userId articleId : string) : M St User :=
  let functionSignature := getFunctionSignature "AddArticleToAuthor" in
  if negb (ObjectId_isValid userId) then throw (objectIdNotValid functionSignature userId)
  else if negb (ObjectId_isValid articleId) then
    throw (objectIdNotValid functionSignature articleId)
  else
    getUserCollection ;;;
    updateResult <- updateOne_addToSet (ById (ObjectId_new userId)) articleId ;;
    if negb (Nat.eqb (modifiedCount updateResult) 1) then
      throw (articleNotAddedToUser functionSignature userId articleId)
    else
      console_log (articleAddedToUser functionSignature userId articleId) ;;;
      reread <- findOne (ById (ObjectId_new userId)) ;;
      lift (cleanUserObject reread).

(** The loop of [checkUserWithEmail], from index [i] on, with the [throw]
    that follows it.  [pwd] is the variable [password] as it is at the loop:
    the hash line 106 assigns to it. *)
Fixpoint checkUserWithEmail_loop (functionSignature email pwd : string)
  (users : list User) : M St User :=
  match users with
  | [] => throw (userWithEmailNotFound functionSignature email)
  | user :: rest =>
      found <- bcrypt_compare (password user) pwd ;;
      if found then
        console_log (validatedUserWithEmail functionSignature email) ;;;
        lift (cleanUserObject (Some user))
      else checkUserWithEmail_loop functionSignature email pwd rest
  end.

Definition checkUserWithEmail (email password : string) : M St User :=
  let functionSignature := getFunctionSignature "CreateUser" in
  let email := trim email in
  pwd <- bcrypt_hash (trim password) 16 ;;
  if negb (isEmail email) then throw (notValid functionSignature email FEmail)
  else
    getUserCollection ;;;
    users <- find_toArray (ByEmail email) ;;
    checkUserWithEmail_loop functionSignature email pwd users.

(** The loop of [checkUserWithUsername]; [pwd] is [password] as it is at the
    loop: the trimmed argument. *)
Fixpoint checkUserWithUsername_loop (functionSignature username pwd : string)
  (users : list User) : M St User :=
  match users with
  | [] => throw (userWithUsernameNotFound functionSignature username)
  | user :: rest =>
      found <- bcrypt_compare pwd (password user) ;;
      if found then
        console_log (validatedUserWithUsername functionSignature username) ;;;
        lift (cleanUserObject (Some user))
      else checkUserWithUsername_loop functionSignature username pwd rest
  end.

Definition checkUserWithUsername (username password : string) : M St User :=
  let functionSignature := getFunctionSignature "CheckUserWithUsername" in
  let username := trim username in
  let pwd := trim password in
  if negb (isAlphanumeric username) then
    throw (notValid functionSignature username FUsername)
  else
    getUserCollection ;;;
    users <- find_toArray (ByUsername username) ;;
    checkUserWithUsername_loop functionSignature username pwd users.

(** The document [createUser] inserts when it runs in the world [w]: the
    object of lines 24 to 28. *)
Definition new_user (em name pw : string) (w : World St) : User :=
  {| _id := None; email := trim em; username := trim name;
     password := hashpw (gensalt (drawn w)) 16 pw; articles := [] |}.

(** A record as the checks of [createUser] and [addArticleToAuthor] let it
    in: a valid email, an alphanumeric username, the hash at cost 16 of a
    strong password, and articles that are valid identifiers. *)
Definition validated (u : User) : Prop :=
  isEmail (email u) = true
  /\ isAlphanumeric (username u) = true
  /\ (exists salt pw, isStrongPassword pw = true /\ password u = hashpw salt 16 pw)
  /\ Forall (fun a => ObjectId_isValid a = true) (articles u).

End Operations.

(** ** A collection in memory *)

(** The documents in the order they were inserted, and the identifier the
    store hands out next. *)
Record MemState : Type := {
  docs : list User;
  nextId : ObjectId
}.

(** Does the document satisfy the query?  An [_id] that is not an ObjectId
    never equals one. *)
Definition matches (f : Filter) (u : User) : bool :=
  match f with
  | ById o =>
      match _id u with
      | Some (ObjId o') => N.eqb o' o
      | _ => false
      end
  | ByEmail e => String.eqb (email u) e
  | ByUsername n => String.eqb (username u) n
  | Everything => true
  end.

Fixpoint remove_first (p : User -> bool) (l : list User) : list User :=
  match l with
  | [] => []
  | u :: rest => if p u then rest else u :: remove_first p rest
  end.

Fixpoint update_first (p : User -> bool) (g : User -> User) (l : list User) : list User :=
  match l with
  | [] => []
  | u :: rest => if p u then g u :: rest else u :: update_first p g rest
  end.

Definition mem_findOne (f : Filter) (st : MemState) : option User * MemState :=
  (List.find (matches f) (docs st), st).

Definition mem_find (f : Filter) (st : MemState) : list User * MemState :=
  (List.filter (matches f) (docs st), st).

(** [insertOne] of a document without [_id]: the store gives it the next
    identifier and acknowledges. *)
Definition mem_insertOne (u : User) (st : MemState) : InsertOneResult * MemState :=
  ({| acknowledged := true; insertedId := Some (nextId st) |},
   {| docs := docs st ++ [set_id (Some (ObjId (nextId st))) u];
      nextId := N.succ (nextId st) |}).

(** [deleteOne]: the first document that matches goes. *)
Definition mem_deleteOne (f : Filter) (st : MemState) : DeleteResult * MemState :=
  match List.find (matches f) (docs st) with
  | Some _ =>
      ({| deletedCount := 1 |},
       {| docs := remove_first (matches f) (docs st); nextId := nextId st |})
  | None => ({| deletedCount := 0 |}, st)
  end.

(** [updateOne] with [{$addToSet: {articles: a}}]: the first document that
    matches gets [a] appended unless it already has it; only a document that
    changed counts as modified. *)
Definition mem_addToSet (f : Filter) (a : string) (st : MemState)
  : UpdateResult * MemState :=
  match List.find (matches f) (docs st) with
  | None => ({| matchedCount := 0; modifiedCount := 0 |}, st)
  | Some u =>
      if existsb (String.eqb a) (articles u) then
        ({| matchedCount := 1; modifiedCount := 0 |}, st)
      else
        ({| matchedCount := 1; modifiedCount := 1 |},
         {| docs := update_first (matches f)
                      (fun d => set_articles (articles d ++ [a]) d) (docs st);
            nextId := nextId st |})
  end.

Definition MemStore : Collection MemState := {|
  coll_findOne := mem_findOne;
  coll_find := mem_find;
  coll_insertOne := mem_insertOne;
  coll_deleteOne := mem_deleteOne;
  coll_addToSet := mem_addToSet
|}.

(** The same collection with another client at work, who deletes a document
    as soon as this client has inserted it or read it with [findOne]: the
    races of the lookup-then-delete and insert-then-read sequences. *)
Definition RacingStore : Collection MemState := {|
  coll_findOne := fun f st =>
    (List.find (matches f) (docs st),
     {| docs := remove_first (matches f) (docs st); nextId := nextId st |});
  coll_find := mem_find;
  coll_insertOne := fun u st =>
    ({| acknowledged := true; insertedId := Some (nextId st) |},
     {| docs := docs st; nextId := N.succ (nextId st) |});
  coll_deleteOne := mem_deleteOne;
  coll_addToSet := mem_addToSet
|}.

(** The same collection under a write concern that asks for no
    acknowledgement: the document is inserted and the driver reports
    [acknowledged: false]. *)
Definition UnackedStore : Collection MemState := {|
  coll_findOne := mem_findOne;
  coll_find := mem_find;
  coll_insertOne := fun u st =>
    ({| acknowledged := false; insertedId := Some (nextId st) |},
     snd (mem_insertOne u st));
  coll_deleteOne := mem_deleteOne;
  coll_addToSet := mem_addToSet
|}.

(** The invariants of the data model, on a collection in memory: identifiers
    are ObjectIds the store has handed out, no two documents share one, and no
    article is listed twice. *)
Definition issued (st : MemState) (u : User) : Prop :=
  exists o, _id u = Some (ObjId o) /\ (o < nextId st)%N.

Definition store_inv (st : MemState) : Prop :=
  NoDup (map _id (docs st))
  /\ (forall u, In u (docs st) -> issued st u)
  /\ (forall u, In u (docs st) -> NoDup (articles u)).

Definition initial {St} (s : St) : World St :=
  {| store := s; drawn := 0; trace := [] |}.

Definition empty_store : MemState := {| docs := []; nextId := 0%N |}.

(** ** Reference collaborators

    Executable stand-ins for the three packages, used to run the operations on
    concrete inputs. *)

Module Reference.

Definition in_range (lo hi : nat) (c : ascii) : bool :=
  (lo <=? nat_of_ascii c)%nat && (nat_of_ascii c <=? hi)%nat.

Definition is_digit (c : ascii) : bool := in_range 48 57 c.
Definition is_upper (c : ascii) : bool := in_range 65 90 c.
Definition is_lower (c : ascii) : bool := in_range 97 122 c.
Definition is_alnum (c : ascii) : bool := is_digit c || is_upper c || is_lower c.

(** [\s] on ASCII: tab, line feed, vertical tab, form feed, carriage return
    and space. *)
Definition is_space (c : ascii) : bool :=
  in_range 9 13 c || Nat.eqb (nat_of_ascii c) 32.

Fixpoint string_forall (p : ascii -> bool) (s : string) : bool :=
  match s with
  | EmptyString => true
  | String c r => p c && string_forall p r
  end.

Fixpoint string_count (p : ascii -> bool) (s : string) : nat :=
  match s with
  | EmptyString => 0
  | String c r => (if p c then 1 else 0) + string_count p r
  end.

Fixpoint ltrim (s : string) : string :=
  match s with
  | EmptyString => EmptyString
  | String c r => if is_space c then ltrim r else s
  end.

Fixpoint rtrim (s : string) : string :=
  match s with
  | EmptyString => EmptyString
  | String c r =>
      match rtrim r with
      | EmptyString => if is_space c then EmptyString else String c EmptyString
      | r' => String c r'
      end
  end.

Fixpoint split_at (sep : ascii) (s : string) : option (string * string) :=
  match s with
  | EmptyString => None
  | String c r =>
      if Ascii.eqb c sep then Some (EmptyString, r)
      else
        match split_at sep r with
        | Some (a, b) => Some (String c a, b)
        | None => None
        end
  end.

Definition is_atom_char (c : ascii) : bool :=
  is_alnum c || Ascii.eqb c "." || Ascii.eqb c "-" || Ascii.eqb c "_".

Definition nonempty (s : string) : bool :=
  match s with EmptyString => false | _ => true end.

(** local part, [@], and a domain with a dot in it. *)
Definition ref_isEmail (s : string) : bool :=
  match split_at "@" s with
  | Some (loc, dom) =>
      nonempty loc && string_forall is_atom_char loc && string_forall is_atom_char dom
      && match split_at "." dom with
         | Some (a, b) => nonempty a && nonempty b
         | None => false
         end
  | None => false
  end.

(** The default policy of [isStrongPassword]: eight characters, and one of
    each of lower case, upper case, digit and symbol. *)
Definition is_symbol (c : ascii) : bool :=
  existsb (Ascii.eqb c)
    (ascii_of_nat 34 :: list_ascii_of_string "-#!$@%^&*()_+|~=`{}[]:;'<>?,./\ ").

Definition ref_isStrongPassword (s : string) : bool :=
  (8 <=? String.length s)%nat
  && (1 <=? string_count is_lower s)%nat
  && (1 <=? string_count is_upper s)%nat
  && (1 <=? string_count is_digit s)%nat
  && (1 <=? string_count is_symbol s)%nat.

#[export] Instance validator : Validator := {|
  trim := fun s => rtrim (ltrim s);
  isEmail := ref_isEmail;
  isAlphanumeric := fun s => nonempty s && string_forall is_alnum s;
  isStrongPassword := ref_isStrongPassword
|}.

(** An idealised bcrypt: the hash is a header of eight characters that holds
    the version, the cost and the salt, followed by a digest that determines
    the data (the data itself). *)
Definition digit_char (n : nat) : ascii := ascii_of_nat (48 + n mod 10).

Definition salt_char (salt : string) : ascii :=
  match salt with
  | EmptyString => "."%char
  | String c _ => c
  end.

Definition ref_hashpw (salt : string) (rounds : nat) (data : string) : string :=
  String "$" (String "2" (String "b" (String "$"
    (String (digit_char (rounds / 10)) (String (digit_char rounds)
      (String "$" (String (salt_char salt) data))))))).

Definition ref_checkpw (data encrypted : string) : bool :=
  match encrypted with
  | String "$" (String "2" (String "b" (String "$"
      (String _ (String _ (String "$" (String _ digest))))))) =>
      String.eqb digest data
  | _ => false
  end.

#[export] Instance bcrypt : Bcrypt := {|
  gensalt := fun n => String (ascii_of_nat (65 + n mod 26)) EmptyString;
  hashpw := ref_hashpw;
  checkpw := ref_checkpw
|}.

(** ObjectIds as 24 hexadecimal digits. *)
Definition is_hex (c : ascii) : bool :=
  is_digit c || in_range 65 70 c || in_range 97 102 c.

Definition hex_value (c : ascii) : N :=
  let n := nat_of_ascii c in
  N.of_nat (if is_digit c then n - 48 else if in_range 65 70 c then n - 55 else n - 87).

Definition hex_char (d : N) : ascii :=
  let n := N.to_nat d in
  ascii_of_nat (if (n <? 10)%nat then 48 + n else 87 + n).

Fixpoint parse_hex (acc : N) (s : string) : N :=
  match s with
  | EmptyString => acc
  | String c r => parse_hex (acc * 16 + hex_value c)%N r
  end.

Fixpoint to_hex (digits : nat) (n : N) : string :=
  match digits with
  | O => EmptyString
  | Datatypes.S k => to_hex k (n / 16)%N ++ String (hex_char (n mod 16)%N) EmptyString
  end.

#[export] Instance bson : Bson := {|
  ObjectId_isValid := fun s => Nat.eqb (String.length s) 24 && string_forall is_hex s;
  ObjectId_new := parse_hex 0;
  toHexString := to_hex 24
|}.

#[export] Instance helpers : Helpers := {|
  getFunctionSignature := fun name => name
|}.

End Reference.

(** ** A small scenario

    One account, created through [createUser] with the reference
    collaborators on an empty collection. *)

Module Scenario.

Import Reference.

Definition nobody : World MemState := initial empty_store.

Definition alice_email : string := "alice@example.com".
Definition alice_password : string := "Passw0rd!".

Definition alice_created : Result User * World MemState :=
  createUser MemStore alice_email " alice " alice_password nobody.

Definition with_alice : World MemState := snd alice_created.

Definition alice_stored : User :=
  {| _id := Some (ObjId 0%N); email := alice_email; username := "alice";
     password := "$2b$16$APassw0rd!"; articles := [] |}.

Definition alice_id : string := "000000000000000000000000".
Definition article_id : string := "0000000000000000000000aa".

(** A password that passes the strength check and ends in a space. *)
Definition spaced_password : string := "Passw0rd! ".

Definition bob_created : Result User * World MemState :=
  createUser MemStore "bob@example.com" "bob" spaced_password with_alice.

Definition bob_returned : User :=
  {| _id := Some (StrId "000000000000000000000001"); email := "bob@example.com";
     username := "bob"; password := "$2b$16$BPassw0rd! "; articles := [] |}.

(** A second account under Alice's username (usernames need not be
    distinct), with its own email and password. *)
Definition twin_password : string := "S3cond!pw".

Definition twin_created : Result User * World MemState :=
  createUser MemStore "twin@example.com" "alice" twin_password with_alice.

Definition with_twins : World MemState := snd twin_created.

Definition twin_stored : User :=
  {| _id := Some (ObjId 1%N); email := "twin@example.com"; username := "alice";
     password := "$2b$16$BS3cond!pw"; articles := [] |}.

Definition twin_id : string := "000000000000000000000001".

(** An object that never went through the store. *)
Definition unsaved : User :=
  {| _id := None; email := "carol@example.com"; username := "carol";
     password := "$2b$16$CPassw0rd!"; articles := [] |}.

End Scenario.

(** ** A bcrypt that reads 72 bytes

    The reference bcrypt with the limit of the real one: the digest
    determines the first 72 bytes of the data and nothing beyond them. *)

Module Truncating.

Import Reference Scenario.

Definition bcrypt72 : Bcrypt := {|
  gensalt := fun n => String (ascii_of_nat (65 + n mod 26)) EmptyString;
  hashpw := fun salt rounds data => ref_hashpw salt rounds (bcrypt_key data);
  checkpw := fun data encrypted => ref_checkpw (bcrypt_key data) encrypted
|}.

(** A strong password of 73 bytes: 72 bytes and a space. *)
Definition long_password : string :=
  "Passw0rd!Passw0rd!Passw0rd!Passw0rd!Passw0rd!Passw0rd!Passw0rd!Passw0rd! ".

(** Carol is created with it. *)
Definition carol_created : Result User * World MemState :=
  createUser (B := bcrypt72) MemStore "carol@example.com" "carol" long_password nobody.

(** Bob, with the short password that ends in a space. *)
Definition bob_created72 : Result User * World MemState :=
  createUser (B := bcrypt72) MemStore "bob@example.com" "bob" spaced_password with_alice.

End Truncating.

Unset Implicit Arguments.

(** * Properties *)

(** Running an operation: unfold it down to the calls it makes. *)
Ltac run :=
  unfold createUser, getUserById, getAllUsers, deleteUserById, addArticleToAuthor,
    checkUserWithEmail, checkUserWithUsername, getUserCollection, findOne,
    find_toArray, insertOne, deleteOne, updateOne_addToSet, console_log,
    bcrypt_hash, bcrypt_compare, call, bind, throw, lift, ret, emit;
  cbn [fst snd store drawn trace negb is_some].

Section Properties.

Context {V : Validator} {B : Bcrypt} {O : Bson} {H : Helpers}.

(** What is assumed of the packages, where a property needs it: [bcrypt]
    verifies exactly the data a hash was derived from, a hash is never the
    data it was derived from, and the hexadecimal form of an ObjectId is not
    the empty string. *)
Hypothesis checkpw_complete :
  forall salt rounds data, checkpw data (hashpw salt rounds data) = true.
Hypothesis checkpw_sound :
  forall salt rounds data data',
    checkpw data' (hashpw salt rounds data) = true -> data' = data.
Hypothesis hashpw_not_plain :
  forall salt rounds data, hashpw salt rounds data <> data.

(** What [bcrypt] can be held to on data of any length: it verifies only
    data that agrees, on the 72 bytes it reads, with the data the hash was
    derived from. *)
Hypothesis checkpw_sound_72 :
  forall salt rounds data data',
    checkpw data' (hashpw salt rounds data) = true ->
    bcrypt_key data' = bcrypt_key data.
Hypothesis toHexString_nonempty :
  forall o, toHexString o <> "".

(** ** Validation comes first *)

Section AnyCollection.

Context {St : Type} (coll : Collection St).

(** C3: when the trimmed email is not an email, the trimmed username is not
    alphanumeric or the password is not strong, [createUser] throws the
    validation message that names the first offending field with its value,
    and the world is left as it was: the store is in the same state and the
    trace has no new call, so the collection was neither obtained, read nor
    written. *)
Theorem createUser_invalid_input_throws_before_store
  (em name pw : string) (w : World St) :
  isEmail (trim em) = false \/ isAlphanumeric (trim name) = false
    \/ isStrongPassword pw = false ->
  exists t,
    createUser coll em name pw w = (Throw t, w)
    /\ classify t = Some ValidationError
    /\ ((names t FEmail (trim em) /\ isEmail (trim em) = false)
        \/ (names t FUsername (trim name) /\ isAlphanumeric (trim name) = false)
        \/ (names t FPassword pw /\ isStrongPassword pw = false))
    /\ store (snd (createUser coll em name pw w)) = store w
    /\ filter is_store_access (trace (snd (createUser coll em name pw w)))
       = filter is_store_access (trace w).
Proof.
  intros Hbad. unfold createUser.
  destruct (isEmail (trim em)) eqn:He; cbn [negb].
  - destruct (isAlphanumeric (trim name)) eqn:Hn; cbn [negb].
    + destruct (isStrongPassword pw) eqn:Hp; cbn [negb].
      * exfalso. destruct Hbad as [Hb | [Hb | Hb]]; discriminate Hb.
      * eexists. split; [reflexivity |]. split; [reflexivity |].
        split; [| split; reflexivity].
        right; right. split; [eexists; reflexivity | reflexivity].
    + eexists. split; [reflexivity |]. split; [reflexivity |].
      split; [| split; reflexivity].
      right; left. split; [eexists; reflexivity | reflexivity].
  - eexists. split; [reflexivity |]. split; [reflexivity |].
    split; [| split; reflexivity].
    left. split; [eexists; reflexivity | reflexivity].
Qed.

(** ** The two credential loops *)

Lemma checkUserWithUsername_loop_Return (sig name pwd : string) (users : list User)
  (w w' : World St) (r : User) :
  checkUserWithUsername_loop sig name pwd users w = (Return r, w') ->
  exists c, In c users /\ checkpw pwd (password c) = true
            /\ cleanUserObject (Some c) = Return r.
Proof.
  revert w. induction users as [| user rest IH]; intros w Hrun.
  - discriminate Hrun.
  - cbn [checkUserWithUsername_loop] in Hrun. revert Hrun. run.
    destruct (checkpw pwd (password user)) eqn:Hc.
    + intros Hrun. exists user. split; [left; reflexivity |]. split; [exact Hc |].
      inversion Hrun. reflexivity.
    + intros Hrun. destruct (IH _ Hrun) as [c [Hin Hrest]].
      exists c. split; [right; exact Hin | exact Hrest].
Qed.

Lemma checkUserWithUsername_loop_Throw (sig name pwd : string) (users : list User)
  (w : World St) :
  (forall c, In c users -> checkpw pwd (password c) = false) ->
  fst (checkUserWithUsername_loop sig name pwd users w)
  = Throw (ThrowMessage (userWithUsernameNotFound sig name)).
Proof.
  revert w. induction users as [| user rest IH]; intros w Hall.
  - reflexivity.
  - cbn [checkUserWithUsername_loop]. run.
    rewrite (Hall user (or_introl eq_refl)).
    apply IH. intros c Hin. apply Hall. right. exact Hin.
Qed.

Lemma checkUserWithEmail_loop_Return (sig em pwd : string) (users : list User)
  (w w' : World St) (r : User) :
  checkUserWithEmail_loop sig em pwd users w = (Return r, w') ->
  exists c, In c users /\ checkpw (password c) pwd = true
            /\ cleanUserObject (Some c) = Return r.
Proof.
  revert w. induction users as [| user rest IH]; intros w Hrun.
  - discriminate Hrun.
  - cbn [checkUserWithEmail_loop] in Hrun. revert Hrun. run.
    destruct (checkpw (password user) pwd) eqn:Hc.
    + intros Hrun. exists user. split; [left; reflexivity |]. split; [exact Hc |].
      inversion Hrun. reflexivity.
    + intros Hrun. destruct (IH _ Hrun) as [c [Hin Hrest]].
      exists c. split; [right; exact Hin | exact Hrest].
Qed.

Lemma checkUserWithEmail_loop_Throw (sig em pwd : string) (users : list User)
  (w : World St) :
  (forall c, In c users -> checkpw (password c) pwd = false) ->
  fst (checkUserWithEmail_loop sig em pwd users w)
  = Throw (ThrowMessage (userWithEmailNotFound sig em)).
Proof.
  revert w. induction users as [| user rest IH]; intros w Hall.
  - reflexivity.
  - cbn [checkUserWithEmail_loop]. run.
    rewrite (Hall user (or_introl eq_refl)).
    apply IH. intros c Hin. apply Hall. right. exact Hin.
Qed.

Lemma compares_as_incl (f g : User -> string) (user : User) (rest : list User) (e : Event) :
  compares_as f g rest e -> compares_as f g (user :: rest) e.
Proof.
  intros [Hr [Hs Hc]]. split; [exact Hr |]. split; [exact Hs |].
  intros d enc He. destruct (Hc d enc He) as [c [Hin Heq]].
  exists c. split; [right; exact Hin | exact Heq].
Qed.

Lemma checkUserWithUsername_loop_trace (sig name pwd : string) (users : list User)
  (w : World St) :
  exists evs,
    trace (snd (checkUserWithUsername_loop sig name pwd users w)) = (trace w ++ evs)%list
    /\ Forall (compares_as (fun _ => pwd) password users) evs.
Proof.
  revert w. induction users as [| user rest IH]; intros w.
  - exists []. split; [symmetry; apply app_nil_r | constructor].
  - cbn [checkUserWithUsername_loop]. run.
    assert (Hhead : compares_as (fun _ => pwd) password (user :: rest)
                      (EvBcryptCompare pwd (password user))).
    { split; [reflexivity |]. split; [reflexivity |].
      intros d enc He. inversion He; subst. exists user.
      split; [left; reflexivity | split; reflexivity]. }
    destruct (checkpw pwd (password user)).
    + eexists. cbn [snd trace]. rewrite <- app_assoc. split; [reflexivity |].
      constructor; [exact Hhead |]. constructor; [| constructor].
      split; [reflexivity |]. split; [reflexivity |]. intros d enc He. discriminate He.
    + match goal with |- context [checkUserWithUsername_loop _ _ _ _ ?w1] =>
        destruct (IH w1) as [evs [Htr Hall]] end.
      exists (EvBcryptCompare pwd (password user) :: evs).
      rewrite Htr. cbn [trace]. rewrite <- app_assoc. split; [reflexivity |].
      constructor; [exact Hhead |].
      eapply Forall_impl; [| exact Hall]. intros e. apply compares_as_incl.
Qed.

Lemma checkUserWithEmail_loop_trace (sig em pwd : string) (users : list User)
  (w : World St) :
  exists evs,
    trace (snd (checkUserWithEmail_loop sig em pwd users w)) = (trace w ++ evs)%list
    /\ Forall (compares_as password (fun _ => pwd) users) evs.
Proof.
  revert w. induction users as [| user rest IH]; intros w.
  - exists []. split; [symmetry; apply app_nil_r | constructor].
  - cbn [checkUserWithEmail_loop]. run.
    assert (Hhead : compares_as password (fun _ => pwd) (user :: rest)
                      (EvBcryptCompare (password user) pwd)).
    { split; [reflexivity |]. split; [reflexivity |].
      intros d enc He. inversion He; subst. exists user.
      split; [left; reflexivity | split; reflexivity]. }
    destruct (checkpw (password user) pwd).
    + eexists. cbn [snd trace]. rewrite <- app_assoc. split; [reflexivity |].
      constructor; [exact Hhead |]. constructor; [| constructor].
      split; [reflexivity |]. split; [reflexivity |]. intros d enc He. discriminate He.
    + match goal with |- context [checkUserWithEmail_loop _ _ _ _ ?w1] =>
        destruct (IH w1) as [evs [Htr Hall]] end.
      exists (EvBcryptCompare (password user) pwd :: evs).
      rewrite Htr. cbn [trace]. rewrite <- app_assoc. split; [reflexivity |].
      constructor; [exact Hhead |].
      eapply Forall_impl; [| exact Hall]. intros e. apply compares_as_incl.
Qed.

Lemma checkUserWithUsername_loop_store (sig name pwd : string) (users : list User)
  (w : World St) :
  store (snd (checkUserWithUsername_loop sig name pwd users w)) = store w.
Proof.
  revert w. induction users as [| user rest IH]; intros w.
  - reflexivity.
  - cbn [checkUserWithUsername_loop]. run.
    destruct (checkpw pwd (password user)); [reflexivity |].
    rewrite IH. reflexivity.
Qed.

Lemma checkUserWithEmail_loop_store (sig em pwd : string) (users : list User)
  (w : World St) :
  store (snd (checkUserWithEmail_loop sig em pwd users w)) = store w.
Proof.
  revert w. induction users as [| user rest IH]; intros w.
  - reflexivity.
  - cbn [checkUserWithEmail_loop]. run.
    destruct (checkpw (password user) pwd); [reflexivity |].
    rewrite IH. reflexivity.
Qed.


(** ** Authentication *)

(** C1: [checkUserWithEmail] hashes the supplied password again and hands
    [bcrypt.compare] the stored hash as the data and the new hash as the
    hash.  The comparison can only succeed for a candidate whose stored
    [password] field is, letter for letter, the trimmed text the caller
    supplied; whenever no candidate is like that (as when the field holds the
    hash of the password and the caller supplies the password) the call
    throws the "email not found" message, the correct password included. *)
Theorem checkUserWithEmail_rejects_correct_password
  (em pw : string) (w : World St) :
  isEmail (trim em) = true ->
  (forall c, In c (fst (coll_find coll (ByEmail (trim em)) (store w))) ->
             password c <> trim pw) ->
  fst (checkUserWithEmail coll em pw w)
  = Throw (ThrowMessage
             (userWithEmailNotFound (getFunctionSignature "CreateUser") (trim em)))
  /\ classify (ThrowMessage
                 (userWithEmailNotFound (getFunctionSignature "CreateUser") (trim em)))
     = Some AuthenticationError.
Proof.
  intros He Hstored. split; [| reflexivity].
  run. rewrite He. cbn [negb].
  apply checkUserWithEmail_loop_Throw.
  intros c Hin.
  destruct (checkpw (password c) (hashpw (gensalt (drawn w)) 16 (trim pw))) eqn:Hc;
    [| reflexivity].
  exfalso. apply (Hstored c Hin). eapply checkpw_sound. exact Hc.
Qed.

(** The sibling does it the right way round: the calls [checkUserWithUsername]
    makes to [bcrypt.compare] have the trimmed supplied password as data and a
    candidate's stored hash as hash, and it never hashes. *)
Lemma checkUserWithUsername_compares_password_to_hash
  (name pw : string) (w : World St) :
  isAlphanumeric (trim name) = true ->
  exists evs,
    trace (snd (checkUserWithUsername coll name pw w))
    = (trace w ++ EvGetUserCollection :: EvFind (ByUsername (trim name)) :: evs)%list
    /\ Forall (compares_as (fun _ => trim pw) password
                 (fst (coll_find coll (ByUsername (trim name)) (store w)))) evs.
Proof.
  intros Hn. run. rewrite Hn. cbn [negb].
  match goal with |- context [checkUserWithUsername_loop ?s ?n ?p ?us ?w1] =>
    destruct (checkUserWithUsername_loop_trace s n p us w1) as [evs [Htr Hall]] end.
  exists evs. rewrite Htr. cbn [trace]. rewrite <- !app_assoc.
  split; [reflexivity | exact Hall].
Qed.

(** C2: on the email path the supplied password is hashed again before the
    loop (the first call the function makes), and every call to
    [bcrypt.compare] has a candidate's stored hash as its data argument and
    that new hash as its hash argument: the two arguments are the other way
    round than on the username path, and neither is the supplied password. *)
Theorem checkUserWithEmail_rehashes_and_swaps
  (em pw : string) (w : World St) :
  isEmail (trim em) = true ->
  exists evs,
    trace (snd (checkUserWithEmail coll em pw w))
    = (trace w ++ EvBcryptHash (trim pw) 16 :: EvGetUserCollection
         :: EvFind (ByEmail (trim em)) :: evs)%list
    /\ Forall (compares_as password
                 (fun _ => hashpw (gensalt (drawn w)) 16 (trim pw))
                 (fst (coll_find coll (ByEmail (trim em)) (store w)))) evs.
Proof.
  intros He. run. rewrite He. cbn [negb].
  match goal with |- context [checkUserWithEmail_loop ?s ?n ?p ?us ?w1] =>
    destruct (checkUserWithEmail_loop_trace s n p us w1) as [evs [Htr Hall]] end.
  exists evs. rewrite Htr. cbn [trace]. rewrite <- !app_assoc.
  split; [reflexivity | exact Hall].
Qed.

(** The sibling path works: [checkUserWithUsername] returns the first
    candidate whose stored hash was derived from the trimmed password. *)
Lemma checkUserWithUsername_accepts_correct_password
  (name pw salt : string) (rounds : nat) (w : World St) (c : User) (rest : list User)
  (i : Id) :
  isAlphanumeric (trim name) = true ->
  fst (coll_find coll (ByUsername (trim name)) (store w)) = c :: rest ->
  password c = hashpw salt rounds (trim pw) -> _id c = Some i ->
  fst (checkUserWithUsername coll name pw w)
  = Return (set_id (Some (StrId (toString i))) c).
Proof.
  intros Hn Hfound Hpw Hid. run. rewrite Hn. cbn [negb]. rewrite Hfound.
  cbn [checkUserWithUsername_loop]. run.
  rewrite Hpw, checkpw_complete. cbn [fst cleanUserObject]. rewrite Hid. reflexivity.
Qed.

(** The email path accepts the stored hash itself in place of the password. *)
Lemma checkUserWithEmail_accepts_stored_hash
  (em pw : string) (w : World St) (c : User) (rest : list User) (i : Id) :
  isEmail (trim em) = true ->
  fst (coll_find coll (ByEmail (trim em)) (store w)) = c :: rest ->
  trim pw = password c -> _id c = Some i ->
  fst (checkUserWithEmail coll em pw w)
  = Return (set_id (Some (StrId (toString i))) c).
Proof.
  intros He Hfound Hpw Hid. run. rewrite He. cbn [negb store drawn trace].
  rewrite Hfound.
  cbn [checkUserWithEmail_loop]. run.
  rewrite Hpw, checkpw_complete. cbn [fst cleanUserObject]. rewrite Hid. reflexivity.
Qed.

(** ** Creation *)

(** The run of [createUser] on a valid triple, call by call. *)
Lemma createUser_valid_run (em name pw : string) (w : World St) :
  isEmail (trim em) = true -> isAlphanumeric (trim name) = true ->
  isStrongPassword pw = true ->
  let sig := getFunctionSignature "CreateUser" in
  let lookup := coll_findOne coll (ByEmail (trim em)) (store w) in
  let output := coll_insertOne coll (new_user em name pw w) (snd lookup) in
  let before :=
    (trace w ++ [EvBcryptHash pw 16; EvGetUserCollection; EvFindOne (ByEmail (trim em))])%list in
  createUser coll em name pw w =
  match fst lookup with
  | Some _ =>
      (Throw (ThrowMessage (userWithEmailAlreadyExists sig (trim em))),
       {| store := snd lookup; drawn := Datatypes.S (drawn w); trace := before |})
  | None =>
      match acknowledged (fst output), insertedId (fst output) with
      | true, Some newId =>
          (cleanUserObject (fst (coll_findOne coll (ById newId) (snd output))),
           {| store := snd (coll_findOne coll (ById newId) (snd output));
              drawn := Datatypes.S (drawn w);
              trace := (before ++ [EvInsertOne (new_user em name pw w);
                                   EvConsoleLog (userSuccessfullyCreated sig (trim em));
                                   EvFindOne (ById newId)])%list |})
      | _, _ =>
          (Throw (ThrowMessage (userNotCreated sig (trim em))),
           {| store := snd output; drawn := Datatypes.S (drawn w);
              trace := (before ++ [EvInsertOne (new_user em name pw w)])%list |})
      end
  end.
Proof.
  intros He Hn Hp. cbv zeta. run. rewrite He, Hn, Hp. cbn [negb].
  unfold new_user.
  destruct (fst (coll_findOne coll (ByEmail (trim em)) (store w))); cbn [is_some].
  - rewrite <- !app_assoc. reflexivity.
  - cbn [fst snd store drawn trace].
    match goal with |- context [coll_insertOne coll ?u ?s] =>
      destruct (acknowledged (fst (coll_insertOne coll u s)));
      destruct (insertedId (fst (coll_insertOne coll u s))) end;
    cbn [fst snd store drawn trace]; rewrite <- !app_assoc; reflexivity.
Qed.

(** C9: after an acknowledged insert, [createUser] reads the document back by
    the identifier the store returned and hands whatever it gets to
    [cleanUserObject].  When the read finds nothing, [cleanUserObject] reads
    [_id] of [null]: the call fails with the runtime's [TypeError], which is
    none of the module's messages and no PersistenceError. *)
Theorem createUser_reread_empty_is_TypeError
  (em name pw : string) (w : World St) (newId : ObjectId) :
  isEmail (trim em) = true -> isAlphanumeric (trim name) = true ->
  isStrongPassword pw = true ->
  let lookup := coll_findOne coll (ByEmail (trim em)) (store w) in
  let output := coll_insertOne coll (new_user em name pw w) (snd lookup) in
  let reread := coll_findOne coll (ById newId) (snd output) in
  fst lookup = None ->
  acknowledged (fst output) = true -> insertedId (fst output) = Some newId ->
  fst (createUser coll em name pw w) = cleanUserObject (fst reread)
  /\ (fst reread = None ->
      fst (createUser coll em name pw w) = Throw TypeError
      /\ classify TypeError <> Some PersistenceError).
Proof.
  intros He Hn Hp lookup output reread Hfree Hack Hid.
  rewrite (createUser_valid_run em name pw w He Hn Hp).
  fold lookup. rewrite Hfree. fold output. rewrite Hack, Hid. cbn [fst].
  fold reread. split; [reflexivity |].
  intros Hnone. rewrite Hnone. split; [reflexivity | discriminate].
Qed.


(** ** Further properties, on any collection *)

(** X1: [checkUserWithEmail] hashes the password before it looks at the
    email: on an email that is not one it throws the validation message (under
    the signature of [createUser], which is the one line 104 asks for) after
    one call to [bcrypt.hash], and without any call to the store. *)
Theorem checkUserWithEmail_invalid_email_hashes_first
  (em pw : string) (w : World St) :
  isEmail (trim em) = false ->
  checkUserWithEmail coll em pw w
  = (Throw (ThrowMessage (notValid (getFunctionSignature "CreateUser") (trim em) FEmail)),
     {| store := store w; drawn := Datatypes.S (drawn w);
        trace := (trace w ++ [EvBcryptHash (trim pw) 16])%list |}).
Proof.
  intros He. run. rewrite He. reflexivity.
Qed.

(** X2: the other argument checks come before everything else.  A username
    that is not alphanumeric after trimming, an identifier [ObjectId.isValid]
    refuses for [deleteUserById], and a user or article identifier it refuses
    for [addArticleToAuthor] (the user's is looked at first) each give the
    validation message for that argument and leave the world as it was. *)
Theorem invalid_arguments_leave_world_untouched (w : World St) :
  (forall name pw,
     isAlphanumeric (trim name) = false ->
     checkUserWithUsername coll name pw w
     = (Throw (ThrowMessage (notValid (getFunctionSignature "CheckUserWithUsername")
                               (trim name) FUsername)), w))
  /\ (forall id,
        ObjectId_isValid id = false ->
        deleteUserById coll id w
        = (Throw (ThrowMessage (objectIdNotValid
                                  (getFunctionSignature "DeleteUserById") id)), w))
  /\ (forall userId articleId,
        ObjectId_isValid userId = false ->
        addArticleToAuthor coll userId articleId w
        = (Throw (ThrowMessage (objectIdNotValid
                                  (getFunctionSignature "AddArticleToAuthor") userId)), w))
  /\ (forall userId articleId,
        ObjectId_isValid userId = true -> ObjectId_isValid articleId = false ->
        addArticleToAuthor coll userId articleId w
        = (Throw (ThrowMessage (objectIdNotValid
                                  (getFunctionSignature "AddArticleToAuthor") articleId)), w)).
Proof.
  split; [| split; [| split]].
  - intros name pw Hn. unfold checkUserWithUsername. rewrite Hn. reflexivity.
  - intros id Hid. unfold deleteUserById. rewrite Hid. reflexivity.
  - intros userId articleId Hu. unfold addArticleToAuthor. rewrite Hu. reflexivity.
  - intros userId articleId Hu Ha. unfold addArticleToAuthor. rewrite Hu, Ha. reflexivity.
Qed.

(** X3: when the store does not acknowledge the insertion, or returns no
    identifier, [createUser] throws the "user not created" message right
    after the insertion: it logs nothing and does not read the record back. *)
Theorem createUser_unacknowledged_insert_throws
  (em name pw : string) (w : World St) :
  isEmail (trim em) = true -> isAlphanumeric (trim name) = true ->
  isStrongPassword pw = true ->
  let lookup := coll_findOne coll (ByEmail (trim em)) (store w) in
  let output := coll_insertOne coll (new_user em name pw w) (snd lookup) in
  fst lookup = None ->
  acknowledged (fst output) = false \/ insertedId (fst output) = None ->
  createUser coll em name pw w
  = (Throw (ThrowMessage (userNotCreated (getFunctionSignature "CreateUser") (trim em))),
     {| store := snd output; drawn := Datatypes.S (drawn w);
        trace := (trace w ++ [EvBcryptHash pw 16; EvGetUserCollection;
                              EvFindOne (ByEmail (trim em));
                              EvInsertOne (new_user em name pw w)])%list |})
  /\ classify (ThrowMessage (userNotCreated (getFunctionSignature "CreateUser") (trim em)))
     = Some PersistenceError.
Proof.
  intros He Hn Hp lookup output Hfree Hbad. split; [| reflexivity].
  rewrite (createUser_valid_run em name pw w He Hn Hp).
  fold lookup. rewrite Hfree. fold output.
  destruct Hbad as [Hack | Hid].
  - rewrite Hack. rewrite <- app_assoc. reflexivity.
  - rewrite Hid. rewrite <- app_assoc.
    destruct (acknowledged (fst output)); reflexivity.
Qed.

(** The username loop, candidate by candidate. *)
Lemma checkUserWithUsername_loop_first_match (sig name pwd : string)
  (l1 l2 : list User) (c : User) (w : World St) :
  (forall d, In d l1 -> checkpw pwd (password d) = false) ->
  checkpw pwd (password c) = true ->
  checkUserWithUsername_loop sig name pwd (l1 ++ c :: l2) w
  = (cleanUserObject (Some c),
     {| store := store w; drawn := drawn w;
        trace := (trace w
                    ++ map (fun d => EvBcryptCompare pwd (password d)) (l1 ++ [c])
                    ++ [EvConsoleLog (validatedUserWithUsername sig name)])%list |}).
Proof.
  revert w. induction l1 as [| d rest IH]; intros w Hfail Hc.
  - cbn [app checkUserWithUsername_loop map]. run. rewrite Hc.
    cbn [store drawn trace]. rewrite <- app_assoc. reflexivity.
  - cbn [app checkUserWithUsername_loop map]. run.
    rewrite (Hfail d (or_introl eq_refl)).
    rewrite IH; [| intros x Hx; apply Hfail; right; exact Hx | exact Hc].
    cbn [store drawn trace]. rewrite <- app_assoc. reflexivity.
Qed.

Lemma checkUserWithUsername_loop_no_match (sig name pwd : string)
  (users : list User) (w : World St) :
  (forall d, In d users -> checkpw pwd (password d) = false) ->
  checkUserWithUsername_loop sig name pwd users w
  = (Throw (ThrowMessage (userWithUsernameNotFound sig name)),
     {| store := store w; drawn := drawn w;
        trace := (trace w ++ map (fun d => EvBcryptCompare pwd (password d)) users)%list |}).
Proof.
  revert w. induction users as [| d rest IH]; intros w Hfail.
  - cbn [checkUserWithUsername_loop map]. unfold throw. rewrite app_nil_r.
    destruct w; reflexivity.
  - cbn [checkUserWithUsername_loop map]. run.
    rewrite (Hfail d (or_introl eq_refl)).
    rewrite IH; [| intros x Hx; apply Hfail; right; exact Hx].
    cbn [store drawn trace]. rewrite <- app_assoc. reflexivity.
Qed.

(** X4: [checkUserWithUsername] goes through the records with that username
    in the order the store returned them, verifies the trimmed password
    against each one's hash, and stops at the first that verifies: that
    record is returned cleaned and the ones after it are never compared.
    When none verifies, every one has been compared once and the
    "username not found" message is thrown. *)
Theorem checkUserWithUsername_scans_until_first_match
  (name pw : string) (w : World St) :
  isAlphanumeric (trim name) = true ->
  let sig := getFunctionSignature "CheckUserWithUsername" in
  let found := coll_find coll (ByUsername (trim name)) (store w) in
  let compare := fun d => EvBcryptCompare (trim pw) (password d) in
  (forall l1 c l2,
     fst found = (l1 ++ c :: l2)%list ->
     (forall d, In d l1 -> checkpw (trim pw) (password d) = false) ->
     checkpw (trim pw) (password c) = true ->
     checkUserWithUsername coll name pw w
     = (cleanUserObject (Some c),
        {| store := snd found; drawn := drawn w;
           trace := (trace w ++ [EvGetUserCollection; EvFind (ByUsername (trim name))]
                       ++ map compare (l1 ++ [c])
                       ++ [EvConsoleLog (validatedUserWithUsername sig (trim name))])%list |}))
  /\ ((forall d, In d (fst found) -> checkpw (trim pw) (password d) = false) ->
      checkUserWithUsername coll name pw w
      = (Throw (ThrowMessage (userWithUsernameNotFound sig (trim name))),
         {| store := snd found; drawn := drawn w;
            trace := (trace w ++ [EvGetUserCollection; EvFind (ByUsername (trim name))]
                        ++ map compare (fst found))%list |})).
Proof.
  intros Hn sig found compare. split.
  - intros l1 c l2 Hfound Hfail Hc. run. rewrite Hn. cbn [negb].
    fold found. rewrite Hfound.
    rewrite (checkUserWithUsername_loop_first_match _ _ _ l1 l2 c _ Hfail Hc).
    cbn [store drawn trace]. rewrite <- !app_assoc. reflexivity.
  - intros Hfail. run. rewrite Hn. cbn [negb]. fold found.
    rewrite (checkUserWithUsername_loop_no_match _ _ _ _ _ Hfail).
    cbn [store drawn trace]. rewrite <- !app_assoc. reflexivity.
Qed.

(** No event a credential loop adds is a write. *)
Lemma compares_as_no_write (f g : User -> string) (users : list User) (evs : list Event) :
  Forall (compares_as f g users) evs -> filter is_store_write evs = [].
Proof.
  induction 1 as [| e rest [_ [Hacc _]] _ IH]; [reflexivity |].
  cbn [filter]. rewrite IH.
  destruct e; try reflexivity; discriminate Hacc.
Qed.

Lemma lookups_make_no_write (w : World St) :
  (forall id,
     filter is_store_write (trace (snd (getUserById coll id w)))
     = filter is_store_write (trace w))
  /\ filter is_store_write (trace (snd (getAllUsers coll w)))
     = filter is_store_write (trace w)
  /\ (forall em pw,
        filter is_store_write (trace (snd (checkUserWithEmail coll em pw w)))
        = filter is_store_write (trace w))
  /\ (forall name pw,
        filter is_store_write (trace (snd (checkUserWithUsername coll name pw w)))
        = filter is_store_write (trace w)).
Proof.
  split; [| split; [| split]].
  - intros id. run. destruct (ObjectId_isValid id); cbn [negb]; [| reflexivity].
    destruct (fst (coll_findOne coll (ById (ObjectId_new id)) (store w)));
      cbn [snd trace]; rewrite !filter_app; cbn [filter is_store_write];
      rewrite ?app_nil_r; reflexivity.
  - run. rewrite !filter_app. cbn [filter is_store_write].
    rewrite !app_nil_r. reflexivity.
  - intros em pw. destruct (isEmail (trim em)) eqn:He.
    + run. rewrite He. cbn [negb].
      match goal with |- context [checkUserWithEmail_loop ?s ?n ?p ?us ?w1] =>
        destruct (checkUserWithEmail_loop_trace s n p us w1) as [evs [Htr Hall]] end.
      rewrite Htr. cbn [trace]. rewrite !filter_app. cbn [filter is_store_write].
      rewrite (compares_as_no_write _ _ _ _ Hall), !app_nil_r. reflexivity.
    + run. rewrite He. cbn [negb snd trace]. rewrite filter_app. apply app_nil_r.
  - intros name pw. destruct (isAlphanumeric (trim name)) eqn:Hn.
    + run. rewrite Hn. cbn [negb].
      match goal with |- context [checkUserWithUsername_loop ?s ?n ?p ?us ?w1] =>
        destruct (checkUserWithUsername_loop_trace s n p us w1) as [evs [Htr Hall]] end.
      rewrite Htr. cbn [trace]. rewrite !filter_app. cbn [filter is_store_write].
      rewrite (compares_as_no_write _ _ _ _ Hall), !app_nil_r. reflexivity.
    + unfold checkUserWithUsername. rewrite Hn. reflexivity.
Qed.


End AnyCollection.

(** ** The collection in memory *)

Lemma matches_ById_true (o : ObjectId) (u : User) :
  matches (ById o) u = true <-> _id u = Some (ObjId o).
Proof.
  unfold matches. destruct (_id u) as [[o' | s] |].
  - rewrite N.eqb_eq. split; [intros ->; reflexivity | intros E; inversion E; reflexivity].
  - split; intros E; discriminate E.
  - split; intros E; discriminate E.
Qed.

Lemma find_none_iff (p : User -> bool) (l : list User) :
  (forall u, In u l -> p u = false) -> List.find p l = None.
Proof.
  induction l as [| d rest IH]; intros Hall; [reflexivity |].
  cbn [List.find]. rewrite (Hall d (or_introl eq_refl)).
  apply IH. intros u Hin. apply Hall. right. exact Hin.
Qed.

Lemma find_snoc_none (p : User -> bool) (l : list User) (d : User) :
  (forall u, In u l -> p u = false) ->
  List.find p (l ++ [d]) = if p d then Some d else None.
Proof.
  induction l as [| x rest IH]; intros Hall; [reflexivity |].
  cbn [app List.find]. rewrite (Hall x (or_introl eq_refl)).
  apply IH. intros u Hin. apply Hall. right. exact Hin.
Qed.

(** Among documents with distinct identifiers, the lookup by identifier finds
    the document that has it. *)
Lemma find_by_id_unique (o : ObjectId) (l : list User) (u : User) :
  NoDup (map _id l) -> In u l -> _id u = Some (ObjId o) ->
  List.find (matches (ById o)) l = Some u.
Proof.
  induction l as [| d rest IH]; intros Hnd Hin Hid; [destruct Hin |].
  cbn [map] in Hnd. inversion Hnd as [| ? ? Hnotin Hnd']; subst.
  cbn [List.find]. destruct Hin as [-> | Hin].
  - rewrite (proj2 (matches_ById_true o u) Hid). reflexivity.
  - destruct (matches (ById o) d) eqn:Hm.
    + exfalso. apply Hnotin. apply matches_ById_true in Hm. rewrite Hm, <- Hid.
      apply in_map. exact Hin.
    + apply IH; assumption.
Qed.

(** An identifier the store has not handed out yet matches no document. *)
Lemma issued_not_next (st : MemState) (u : User) :
  issued st u -> matches (ById (nextId st)) u = false.
Proof.
  intros [o [Hid Hlt]]. unfold matches. rewrite Hid.
  apply N.eqb_neq. lia.
Qed.

Lemma remove_first_split (p : User -> bool) (l : list User) (u : User) :
  List.find p l = Some u ->
  exists l1 l2, l = (l1 ++ u :: l2)%list /\ remove_first p l = (l1 ++ l2)%list
                /\ forall d, In d l1 -> p d = false.
Proof.
  induction l as [| x rest IH]; intros Hf; [discriminate Hf |].
  cbn [List.find remove_first] in *. destruct (p x) eqn:Hp.
  - inversion Hf; subst. exists [], rest. split; [reflexivity |].
    split; [reflexivity |]. intros d [].
  - destruct (IH Hf) as [l1 [l2 [E1 [E2 Hl1]]]].
    exists (x :: l1), l2. cbn [app]. rewrite E1 at 1. rewrite E2.
    split; [reflexivity |]. split; [reflexivity |].
    intros d [<- | Hin]; [exact Hp | apply Hl1; exact Hin].
Qed.

Lemma find_update_first (p : User -> bool) (g : User -> User) (l : list User) (u : User) :
  List.find p l = Some u -> p (g u) = true ->
  List.find p (update_first p g l) = Some (g u).
Proof.
  induction l as [| x rest IH]; intros Hf Hg; [discriminate Hf |].
  cbn [List.find update_first] in *. destruct (p x) eqn:Hp.
  - inversion Hf; subst. cbn [List.find]. rewrite Hg. reflexivity.
  - cbn [List.find]. rewrite Hp. apply IH; assumption.
Qed.

Lemma existsb_eqb_In (a : string) (l : list string) :
  existsb (String.eqb a) l = true <-> In a l.
Proof.
  rewrite existsb_exists. split.
  - intros [x [Hin Heq]]. apply String.eqb_eq in Heq. subst. exact Hin.
  - intros Hin. exists a. split; [exact Hin | apply String.eqb_refl].
Qed.

(** The invariants hold of the empty collection and survive an insertion. *)
Lemma store_inv_empty : store_inv empty_store.
Proof.
  split; [constructor |]. split; intros u [].
Qed.

Lemma store_inv_insertOne (st : MemState) (u : User) :
  store_inv st -> NoDup (articles u) ->
  store_inv (snd (mem_insertOne u st)).
Proof.
  intros [Hnd [Hiss Hart]] Hu. unfold mem_insertOne. cbn [snd]. split; [| split].
  - cbn [docs]. rewrite map_app. cbn [map set_id _id].
    apply NoDup_app; [exact Hnd | repeat constructor; intros [] |].
    intros i Hin [Heq | []]. subst i.
    apply in_map_iff in Hin. destruct Hin as [d [Hd Hin]].
    destruct (Hiss d Hin) as [o [Ho Hlt]]. rewrite Ho in Hd.
    inversion Hd. lia.
  - cbn [docs nextId]. intros d Hin. apply in_app_or in Hin.
    destruct Hin as [Hin | [<- | []]].
    + destruct (Hiss d Hin) as [o [Ho Hlt]]. exists o. split; [exact Ho |].
      cbn [nextId]. lia.
    + exists (nextId st). split; [reflexivity |]. cbn [nextId]. lia.
  - cbn [docs]. intros d Hin. apply in_app_or in Hin.
    destruct Hin as [Hin | [<- | []]]; [apply Hart; exact Hin | exact Hu].
Qed.

Lemma remove_first_incl (p : User -> bool) (l : list User) (d : User) :
  In d (remove_first p l) -> In d l.
Proof.
  induction l as [| x rest IH]; intros Hin; [destruct Hin |].
  cbn [remove_first] in Hin. destruct (p x).
  - right. exact Hin.
  - destruct Hin as [<- | Hin]; [left; reflexivity | right; apply IH; exact Hin].
Qed.

Lemma remove_first_NoDup_ids (p : User -> bool) (l : list User) :
  NoDup (map _id l) -> NoDup (map _id (remove_first p l)).
Proof.
  induction l as [| x rest IH]; intros Hnd; [exact Hnd |].
  cbn [map] in Hnd. inversion Hnd as [| ? ? Hnotin Hnd']; subst.
  cbn [remove_first]. destruct (p x); [exact Hnd' |].
  cbn [map]. constructor; [| apply IH; exact Hnd'].
  intros Hin. apply Hnotin. apply in_map_iff in Hin.
  destruct Hin as [d [Hd Hin]]. rewrite <- Hd. apply in_map.
  apply (remove_first_incl p). exact Hin.
Qed.

Lemma store_inv_deleteOne (f : Filter) (st : MemState) :
  store_inv st -> store_inv (snd (mem_deleteOne f st)).
Proof.
  intros Hinv. unfold mem_deleteOne.
  destruct (List.find (matches f) (docs st)); [| exact Hinv].
  destruct Hinv as [Hnd [Hiss Hart]]. cbn [snd]. split; [| split]; cbn [docs].
  - apply remove_first_NoDup_ids. exact Hnd.
  - intros d Hin. destruct (Hiss d (remove_first_incl _ _ _ Hin)) as [o Ho].
    exists o. exact Ho.
  - intros d Hin. apply Hart. apply (remove_first_incl _ _ _ Hin).
Qed.

Lemma update_first_ids (p : User -> bool) (l : list User) (g : User -> User) :
  (forall d, _id (g d) = _id d) ->
  map _id (update_first p g l) = map _id l.
Proof.
  intros Hg. induction l as [| x rest IH]; [reflexivity |].
  cbn [update_first]. destruct (p x); cbn [map].
  - rewrite Hg. reflexivity.
  - rewrite IH. reflexivity.
Qed.

Lemma update_first_In (p : User -> bool) (g : User -> User) (l : list User) (d : User) :
  In d (update_first p g l) ->
  In d l \/ exists x, In x l /\ p x = true /\ d = g x.
Proof.
  induction l as [| x rest IH]; intros Hin; [destruct Hin |].
  cbn [update_first] in Hin. destruct (p x) eqn:Hp.
  - destruct Hin as [<- | Hin].
    + right. exists x. split; [left; reflexivity | split; [exact Hp | reflexivity]].
    + left. right. exact Hin.
  - destruct Hin as [<- | Hin]; [left; left; reflexivity |].
    destruct (IH Hin) as [Hl | [y [Hy Hrest]]].
    + left. right. exact Hl.
    + right. exists y. split; [right; exact Hy | exact Hrest].
Qed.

Lemma find_update_first_source (p : User -> bool) (l : list User) (u x : User) :
  List.find p l = Some u -> In x l -> p x = true ->
  NoDup (map _id l) -> (forall a b, p a = true -> p b = true -> _id a = _id b) ->
  x = u.
Proof.
  induction l as [| y rest IH]; intros Hf Hin Hp Hnd Hsame; [destruct Hin |].
  cbn [map] in Hnd. inversion Hnd as [| ? ? Hnotin Hnd']; subst.
  cbn [List.find] in Hf. destruct (p y) eqn:Hy.
  - inversion Hf; subst. destruct Hin as [<- | Hin]; [reflexivity |].
    exfalso. apply Hnotin. rewrite (Hsame u x Hy Hp). apply in_map. exact Hin.
  - destruct Hin as [<- | Hin]; [rewrite Hp in Hy; discriminate Hy |].
    apply IH; assumption.
Qed.

Lemma store_inv_addToSet (o : ObjectId) (a : string) (st : MemState) :
  store_inv st -> store_inv (snd (mem_addToSet (ById o) a st)).
Proof.
  intros Hinv. unfold mem_addToSet.
  destruct (List.find (matches (ById o)) (docs st)) as [u |] eqn:Hf; [| exact Hinv].
  destruct (existsb (String.eqb a) (articles u)) eqn:Hex; [exact Hinv |].
  destruct Hinv as [Hnd [Hiss Hart]]. cbn [snd]. split; [| split]; cbn [docs nextId].
  - rewrite update_first_ids; [exact Hnd | reflexivity].
  - intros d Hin. apply update_first_In in Hin.
    destruct Hin as [Hin | [x [Hx [_ ->]]]]; [apply Hiss; exact Hin |].
    destruct (Hiss x Hx) as [o' Ho']. exists o'. exact Ho'.
  - intros d Hin. apply update_first_In in Hin.
    destruct Hin as [Hin | [x [Hx [Hp ->]]]]; [apply Hart; exact Hin |].
    assert (Hxu : x = u).
    { apply (find_update_first_source _ _ _ _ Hf Hx Hp Hnd).
      intros c1 c2 H1 H2. apply matches_ById_true in H1, H2. congruence. }
    subst x. cbn [set_articles articles].
    apply NoDup_app; [apply Hart; exact Hx | repeat constructor; intros [] |].
    intros y Hy [Hya | []]. subst y.
    apply existsb_eqb_In in Hy. rewrite Hy in Hex. discriminate Hex.
Qed.

(** *** Creation on the collection in memory *)

(** The record the store holds after [createUser] ran in [w]. *)
Lemma mem_lookup_email_free (em : string) (l : list User) :
  (forall u, In u l -> email u <> em) ->
  List.find (matches (ByEmail em)) l = None.
Proof.
  intros Hfree. apply find_none_iff. intros u Hin. cbn [matches].
  apply String.eqb_neq. apply Hfree. exact Hin.
Qed.

Lemma createUser_mem_run (em name pw : string) (w : World MemState) :
  store_inv (store w) ->
  isEmail (trim em) = true -> isAlphanumeric (trim name) = true ->
  isStrongPassword pw = true ->
  (forall u, In u (docs (store w)) -> email u <> trim em) ->
  let newId := nextId (store w) in
  let stored := set_id (Some (ObjId newId)) (new_user em name pw w) in
  createUser MemStore em name pw w
  = (Return (set_id (Some (StrId (toHexString newId))) stored),
     {| store := {| docs := docs (store w) ++ [stored]; nextId := N.succ newId |};
        drawn := Datatypes.S (drawn w);
        trace := (trace w ++ [EvBcryptHash pw 16; EvGetUserCollection;
                              EvFindOne (ByEmail (trim em));
                              EvInsertOne (new_user em name pw w);
                              EvConsoleLog (userSuccessfullyCreated
                                              (getFunctionSignature "CreateUser") (trim em));
                              EvFindOne (ById newId)])%list |}).
Proof.
  intros [_ [Hiss _]] He Hn Hp Hfree newId stored.
  rewrite (createUser_valid_run MemStore em name pw w He Hn Hp).
  cbn [MemStore coll_findOne coll_insertOne mem_findOne mem_insertOne fst snd
       acknowledged insertedId docs nextId].
  rewrite (mem_lookup_email_free _ _ Hfree).
  fold newId. fold stored.
  rewrite find_snoc_none.
  2:{ intros u Hin. apply issued_not_next. apply Hiss. exact Hin. }
  replace (matches (ById newId) stored) with true.
  2:{ symmetry. apply matches_ById_true. reflexivity. }
  cbn [cleanUserObject]. unfold stored at 1. cbn [set_id _id toString].
  rewrite <- app_assoc. reflexivity.
Qed.


Lemma createUser_mem_Return_inv (em name pw : string) (w w1 : World MemState) (u : User) :
  createUser MemStore em name pw w = (Return u, w1) ->
  isEmail (trim em) = true /\ isAlphanumeric (trim name) = true
  /\ isStrongPassword pw = true
  /\ forall d, In d (docs (store w)) -> email d <> trim em.
Proof.
  intros Hrun.
  destruct (isEmail (trim em)) eqn:He.
  2:{ unfold createUser in Hrun. rewrite He in Hrun. discriminate Hrun. }
  destruct (isAlphanumeric (trim name)) eqn:Hn.
  2:{ unfold createUser in Hrun. rewrite He, Hn in Hrun. discriminate Hrun. }
  destruct (isStrongPassword pw) eqn:Hp.
  2:{ unfold createUser in Hrun. rewrite He, Hn, Hp in Hrun. discriminate Hrun. }
  repeat split.
  intros d Hin Heq.
  rewrite (createUser_valid_run MemStore em name pw w He Hn Hp) in Hrun.
  cbn [MemStore coll_findOne mem_findOne fst] in Hrun.
  destruct (List.find (matches (ByEmail (trim em))) (docs (store w))) eqn:Hf.
  - discriminate Hrun.
  - apply (find_none _ _ Hf) in Hin. cbn [matches] in Hin.
    apply String.eqb_neq in Hin. apply Hin. exact Heq.
Qed.

(** C4: on a valid triple whose trimmed email is the email of a stored
    record, [createUser] throws the "email already exists" message, whatever
    the username and the password; it has hashed the password and made one
    read, the collection is as it was and there is no insertion. *)
Theorem createUser_email_in_use_conflict
  (em name pw : string) (w : World MemState) (u : User) :
  isEmail (trim em) = true -> isAlphanumeric (trim name) = true ->
  isStrongPassword pw = true ->
  In u (docs (store w)) -> email u = trim em ->
  exists t w',
    createUser MemStore em name pw w = (Throw t, w')
    /\ t = ThrowMessage (userWithEmailAlreadyExists
                           (getFunctionSignature "CreateUser") (trim em))
    /\ classify t = Some ConflictError
    /\ store w' = store w
    /\ trace w' = (trace w ++ [EvBcryptHash pw 16; EvGetUserCollection;
                                EvFindOne (ByEmail (trim em))])%list
    /\ filter is_store_write (trace w') = filter is_store_write (trace w).
Proof.
  intros He Hn Hp Hin Heq.
  rewrite (createUser_valid_run MemStore em name pw w He Hn Hp).
  cbn [MemStore coll_findOne mem_findOne fst snd].
  destruct (List.find (matches (ByEmail (trim em))) (docs (store w))) eqn:Hf.
  - do 2 eexists. split; [reflexivity |]. split; [reflexivity |].
    split; [reflexivity |]. split; [reflexivity |]. split; [reflexivity |].
    cbn [trace]. rewrite filter_app. cbn [filter is_store_write].
    apply app_nil_r.
  - exfalso. apply (find_none _ _ Hf) in Hin. cbn [matches] in Hin.
    rewrite Heq, String.eqb_refl in Hin. discriminate Hin.
Qed.

(** C5, amended: on a valid triple whose trimmed email no stored record has,
    [createUser] returns a user whose [_id] is the hexadecimal string of the
    identifier the store gave, which is not empty; the one record it adds to
    the collection holds the bcrypt hash of the password at cost 16 and
    nothing else of the password, and the [password] field, stored and
    returned, differs from the password. *)
Theorem createUser_returns_hashed_user
  (em name pw : string) (w : World MemState) :
  store_inv (store w) ->
  isEmail (trim em) = true -> isAlphanumeric (trim name) = true ->
  isStrongPassword pw = true ->
  (forall u, In u (docs (store w)) -> email u <> trim em) ->
  exists r w' id,
    createUser MemStore em name pw w = (Return r, w')
    /\ _id r = Some (StrId id) /\ id <> ""
    /\ email r = trim em /\ username r = trim name
    /\ password r = hashpw (gensalt (drawn w)) 16 pw
    /\ password r <> pw
    /\ docs (store w')
       = (docs (store w)
            ++ [{| _id := Some (ObjId (nextId (store w))); email := trim em;
                   username := trim name;
                   password := hashpw (gensalt (drawn w)) 16 pw;
                   articles := [] |}])%list
    /\ filter is_store_write (trace w')
       = (filter is_store_write (trace w)
            ++ [EvInsertOne {| _id := None; email := trim em; username := trim name;
                               password := hashpw (gensalt (drawn w)) 16 pw;
                               articles := [] |}])%list.
Proof.
  intros Hinv He Hn Hp Hfree.
  rewrite (createUser_mem_run em name pw w Hinv He Hn Hp Hfree).
  do 3 eexists. split; [reflexivity |].
  cbn [set_id _id email username password new_user store docs trace].
  split; [reflexivity |]. split; [apply toHexString_nonempty |].
  split; [reflexivity |]. split; [reflexivity |]. split; [reflexivity |].
  split; [apply hashpw_not_plain |]. split; [reflexivity |].
  rewrite filter_app. reflexivity.
Qed.


(** ** Lookup and deletion *)

Lemma find_by_id_absent (o : ObjectId) (l : list User) :
  (forall u, In u l -> _id u <> Some (ObjId o)) ->
  List.find (matches (ById o)) l = None.
Proof.
  intros Habs. apply find_none_iff. intros u Hin.
  destruct (matches (ById o) u) eqn:Hm; [| reflexivity].
  exfalso. apply (Habs u Hin). apply matches_ById_true. exact Hm.
Qed.

(** C6: [getUserById] throws the "ObjectId not valid" message on an
    identifier [ObjectId.isValid] refuses, and leaves the world as it was (no
    call to the store, whatever the collection); on a valid identifier that
    no stored record has it
    throws the "user not found" message; on a valid identifier of a stored
    record it returns that record with [_id] replaced by the hexadecimal
    string of the identifier. *)
Theorem getUserById_validates_finds_and_cleans (id : string) (w : World MemState) :
  (ObjectId_isValid id = false ->
   exists t,
     t = ThrowMessage (objectIdNotValid (getFunctionSignature "GetUserById") id)
     /\ classify t = Some ValidationError
     /\ forall (St : Type) (coll : Collection St) (v : World St),
          getUserById coll id v = (Throw t, v))
  /\ (ObjectId_isValid id = true ->
      (forall u, In u (docs (store w)) -> _id u <> Some (ObjId (ObjectId_new id))) ->
      exists t,
        fst (getUserById MemStore id w) = Throw t
        /\ t = ThrowMessage (userNotFound (getFunctionSignature "GetUserById") id)
        /\ classify t = Some NotFoundError)
  /\ (ObjectId_isValid id = true ->
      forall u, store_inv (store w) -> In u (docs (store w)) ->
      _id u = Some (ObjId (ObjectId_new id)) ->
      exists r,
        fst (getUserById MemStore id w) = Return r
        /\ r = set_id (Some (StrId (toHexString (ObjectId_new id)))) u
        /\ _id r = Some (StrId (toHexString (ObjectId_new id)))
        /\ store (snd (getUserById MemStore id w)) = store w).
Proof.
  split; [| split].
  - intros Hbad. eexists. split; [reflexivity |]. split; [reflexivity |].
    intros St coll v. unfold getUserById. rewrite Hbad. reflexivity.
  - intros Hok Habs. run. rewrite Hok. cbn [negb].
    cbn [MemStore coll_findOne mem_findOne fst snd].
    rewrite (find_by_id_absent _ _ Habs).
    eexists. split; [reflexivity |]. split; reflexivity.
  - intros Hok u [Hnd _] Hin Hid. run. rewrite Hok. cbn [negb].
    cbn [MemStore coll_findOne mem_findOne fst snd].
    rewrite (find_by_id_unique _ _ _ Hnd Hin Hid).
    cbn [cleanUserObject fst snd store]. rewrite Hid. cbn [toString].
    eexists. split; [reflexivity |]. split; [reflexivity |].
    split; reflexivity.
Qed.

Lemma remove_first_by_id_gone (o : ObjectId) (l : list User) (u : User) :
  NoDup (map _id l) -> In u l -> _id u = Some (ObjId o) ->
  exists l1 l2, l = (l1 ++ u :: l2)%list
                /\ remove_first (matches (ById o)) l = (l1 ++ l2)%list
                /\ List.find (matches (ById o)) (l1 ++ l2) = None.
Proof.
  intros Hnd Hin Hid.
  destruct (remove_first_split _ _ _ (find_by_id_unique _ _ _ Hnd Hin Hid))
    as [l1 [l2 [E1 [E2 _]]]].
  exists l1, l2. split; [exact E1 |]. split; [exact E2 |].
  apply find_by_id_absent. intros d Hd Hdid.
  rewrite E1, map_app in Hnd. cbn [map] in Hnd.
  apply NoDup_remove_2 in Hnd. apply Hnd.
  rewrite <- map_app, Hid, <- Hdid. apply in_map. exact Hd.
Qed.

(** C7: on the identifier of a stored record, [deleteUserById] takes exactly
    that record out of the collection and returns it as it was read before
    the deletion, cleaned; [getUserById] on the same identifier then throws
    the "user not found" message.  On any collection, when [deleteOne]
    reports a count that is not 1 for a record the lookup found,
    [deleteUserById] throws the "user not deleted" message. *)
Theorem deleteUserById_removes_and_returns_snapshot (id : string) :
  ObjectId_isValid id = true ->
  (forall (w : World MemState) (u : User),
     store_inv (store w) -> In u (docs (store w)) ->
     _id u = Some (ObjId (ObjectId_new id)) ->
     exists w' l1 l2,
       deleteUserById MemStore id w
       = (Return (set_id (Some (StrId (toHexString (ObjectId_new id)))) u), w')
       /\ docs (store w) = (l1 ++ u :: l2)%list
       /\ docs (store w') = (l1 ++ l2)%list
       /\ fst (getUserById MemStore id w')
          = Throw (ThrowMessage (userNotFound (getFunctionSignature "GetUserById") id))
       /\ classify (ThrowMessage (userNotFound (getFunctionSignature "GetUserById") id))
          = Some NotFoundError)
  /\ (forall (St : Type) (coll : Collection St) (v : World St) (d : User),
        fst (coll_findOne coll (ById (ObjectId_new id)) (store v)) = Some d ->
        deletedCount
          (fst (coll_deleteOne coll (ById (ObjectId_new id))
                  (snd (coll_findOne coll (ById (ObjectId_new id)) (store v))))) <> 1 ->
        fst (deleteUserById coll id v)
        = Throw (ThrowMessage
                   (userNotDeletedFromDatabase (getFunctionSignature "DeleteUserById") id))
        /\ classify (ThrowMessage
                       (userNotDeletedFromDatabase
                          (getFunctionSignature "DeleteUserById") id))
           = Some PersistenceError).
Proof.
  intros Hok. split.
  - intros w u [Hnd _] Hin Hid.
    destruct (remove_first_by_id_gone _ _ _ Hnd Hin Hid) as [l1 [l2 [E1 [E2 Hgone]]]].
    exists {| store := {| docs := (l1 ++ l2)%list; nextId := nextId (store w) |};
              drawn := drawn w;
              trace := (trace w ++ [EvGetUserCollection;
                                    EvFindOne (ById (ObjectId_new id));
                                    EvDeleteOne (ById (ObjectId_new id))])%list |}, l1, l2.
    split; [| split; [exact E1 |]; split; [reflexivity |]; split; [| reflexivity]].
    + run. rewrite Hok. cbn [negb].
      cbn [MemStore coll_findOne coll_deleteOne mem_findOne fst snd].
      unfold mem_deleteOne.
      rewrite (find_by_id_unique _ _ _ Hnd Hin Hid).
      cbn [fst snd store]. rewrite (find_by_id_unique _ _ _ Hnd Hin Hid).
      cbn [fst snd deletedCount Nat.eqb negb cleanUserObject store drawn trace].
      rewrite Hid, E2. cbn [toString]. rewrite <- !app_assoc. reflexivity.
    + run. rewrite Hok. cbn [negb].
      cbn [MemStore coll_findOne mem_findOne fst snd store docs].
      rewrite Hgone. reflexivity.
  - intros St coll v d Hfound Hcount. split; [| reflexivity].
    run. rewrite Hok. cbn [negb]. rewrite Hfound.
    cbn [fst snd store].
    destruct (Nat.eqb _ 1) eqn:Hc; [| reflexivity].
    apply Nat.eqb_eq in Hc. contradiction.
Qed.


(** ** Articles *)

(** The run of [addArticleToAuthor] on valid identifiers of a stored user. *)
Lemma addArticleToAuthor_mem_run (userId articleId : string) (w : World MemState) (u : User) :
  ObjectId_isValid userId = true -> ObjectId_isValid articleId = true ->
  List.find (matches (ById (ObjectId_new userId))) (docs (store w)) = Some u ->
  let sig := getFunctionSignature "AddArticleToAuthor" in
  let f := ById (ObjectId_new userId) in
  let updated := set_articles (articles u ++ [articleId]) u in
  addArticleToAuthor MemStore userId articleId w
  = if existsb (String.eqb articleId) (articles u) then
      (Throw (ThrowMessage (articleNotAddedToUser sig userId articleId)),
       {| store := store w; drawn := drawn w;
          trace := (trace w ++ [EvGetUserCollection; EvUpdateOne f articleId])%list |})
    else
      (cleanUserObject (Some updated),
       {| store := {| docs := update_first (matches f)
                                (fun d => set_articles (articles d ++ [articleId]) d)
                                (docs (store w));
                      nextId := nextId (store w) |};
          drawn := drawn w;
          trace := (trace w ++ [EvGetUserCollection; EvUpdateOne f articleId;
                                EvConsoleLog (articleAddedToUser sig userId articleId);
                                EvFindOne f])%list |}).
Proof.
  intros Hu Ha Hf sig f updated. run. rewrite Hu, Ha. cbn [negb].
  cbn [MemStore coll_addToSet coll_findOne mem_findOne]. unfold mem_addToSet.
  rewrite Hf.
  destruct (existsb (String.eqb articleId) (articles u)) eqn:Hin;
    cbn [fst snd modifiedCount Nat.eqb negb store drawn trace docs].
  - rewrite <- !app_assoc. reflexivity.
  - unfold mem_findOne. cbn [fst snd docs].
    rewrite (find_update_first _ _ _ _ Hf).
    + rewrite <- !app_assoc. reflexivity.
    + destruct (find_some _ _ Hf) as [_ Hm]. exact Hm.
Qed.

(** C8: two calls of [addArticleToAuthor] with the same valid identifiers, on
    a stored user: the second throws the "article not added" message and
    leaves the collection as the first left it, and the user's record then
    lists the article exactly once. *)
Theorem addArticleToAuthor_twice_once_in_set_second_throws
  (userId articleId : string) (w : World MemState) (u : User) :
  store_inv (store w) ->
  ObjectId_isValid userId = true -> ObjectId_isValid articleId = true ->
  In u (docs (store w)) -> _id u = Some (ObjId (ObjectId_new userId)) ->
  let first := addArticleToAuthor MemStore userId articleId w in
  let second := addArticleToAuthor MemStore userId articleId (snd first) in
  fst second
  = Throw (ThrowMessage (articleNotAddedToUser
                           (getFunctionSignature "AddArticleToAuthor") userId articleId))
  /\ classify (ThrowMessage (articleNotAddedToUser
                               (getFunctionSignature "AddArticleToAuthor") userId articleId))
     = Some PersistenceError
  /\ store (snd second) = store (snd first)
  /\ exists u',
       List.find (matches (ById (ObjectId_new userId))) (docs (store (snd second)))
       = Some u'
       /\ _id u' = _id u
       /\ count_occ string_dec (articles u') articleId = 1.
Proof.
  intros [Hnd [_ Hart]] Hu Ha Hin Hid first second.
  pose proof (find_by_id_unique _ _ _ Hnd Hin Hid) as Hf.
  pose proof (addArticleToAuthor_mem_run userId articleId w u Hu Ha Hf) as Hfirst.
  cbv zeta in Hfirst. fold first in Hfirst.
  destruct (existsb (String.eqb articleId) (articles u)) eqn:Hex.
  - (* the article is already listed: the first call throws too *)
    assert (Hf1 : List.find (matches (ById (ObjectId_new userId)))
                    (docs (store (snd first))) = Some u).
    { rewrite Hfirst. exact Hf. }
    pose proof (addArticleToAuthor_mem_run userId articleId (snd first) u Hu Ha Hf1)
      as Hsecond.
    cbv zeta in Hsecond. fold second in Hsecond. rewrite Hex in Hsecond.
    rewrite Hsecond. cbn [fst snd store].
    split; [reflexivity |]. split; [reflexivity |]. split; [reflexivity |].
    exists u. split; [exact Hf1 |]. split; [reflexivity |].
    apply NoDup_count_occ'; [apply Hart; exact Hin |].
    apply existsb_eqb_In. exact Hex.
  - (* the first call appends it *)
    set (updated := set_articles (articles u ++ [articleId]) u) in *.
    assert (Hf1 : List.find (matches (ById (ObjectId_new userId)))
                    (docs (store (snd first))) = Some updated).
    { rewrite Hfirst. cbn [snd store docs].
      apply (find_update_first _ (fun d => set_articles (articles d ++ [articleId]) d)
               _ _ Hf).
      destruct (find_some _ _ Hf) as [_ Hm]. exact Hm. }
    pose proof (addArticleToAuthor_mem_run userId articleId (snd first) updated Hu Ha Hf1)
      as Hsecond.
    cbv zeta in Hsecond. fold second in Hsecond.
    assert (Hnow : existsb (String.eqb articleId) (articles updated) = true).
    { apply existsb_eqb_In. unfold updated. cbn [set_articles articles].
      apply in_or_app. right. left. reflexivity. }
    rewrite Hnow in Hsecond. rewrite Hsecond. cbn [fst snd store].
    split; [reflexivity |]. split; [reflexivity |]. split; [reflexivity |].
    exists updated. split; [exact Hf1 |]. split; [reflexivity |].
    unfold updated. cbn [set_articles articles].
    rewrite count_occ_app. cbn [count_occ].
    destruct (string_dec articleId articleId) as [_ | Hne]; [| contradiction].
    assert (Hzero : count_occ string_dec (articles u) articleId = 0).
    { apply count_occ_not_In. intros Hi. apply existsb_eqb_In in Hi.
      rewrite Hi in Hex. discriminate Hex. }
    rewrite Hzero. reflexivity.
Qed.

(** ** Trimmed on the way in, not on the way to the store *)

Lemma cleanUserObject_password (c r : User) :
  cleanUserObject (Some c) = Return r -> password r = password c.
Proof.
  unfold cleanUserObject. destruct (_id c); intros E; inversion E. reflexivity.
Qed.

(** C10, amended: [createUser] hashes the password as given,
    [checkUserWithUsername] hands [bcrypt.compare] the trimmed one.  When
    trimming changes a password the strength check accepts within the 72
    bytes [bcrypt] reads, the user [createUser] has just returned for it is
    not what [checkUserWithUsername] returns for that same password, under
    any username; and when no other record has the username the call throws
    the "username not found" message. *)
Theorem checkUserWithUsername_rejects_password_trimmed_in_bcrypt_key
  (em name pw : string) (w w1 : World MemState) (u : User) :
  store_inv (store w) ->
  isStrongPassword pw = true -> bcrypt_key (trim pw) <> bcrypt_key pw ->
  createUser MemStore em name pw w = (Return u, w1) ->
  password u = hashpw (gensalt (drawn w)) 16 pw
  /\ (forall name', isAlphanumeric (trim name') = true ->
       exists evs,
         trace (snd (checkUserWithUsername MemStore name' pw w1))
         = (trace w1 ++ EvGetUserCollection :: EvFind (ByUsername (trim name')) :: evs)%list
         /\ Forall (compares_as (fun _ => trim pw) password
                      (fst (coll_find MemStore (ByUsername (trim name')) (store w1))))
              evs)
  /\ (forall name' w2, checkUserWithUsername MemStore name' pw w1 <> (Return u, w2))
  /\ ((forall c, In c (docs (store w)) -> username c <> trim name) ->
      fst (checkUserWithUsername MemStore name pw w1)
      = Throw (ThrowMessage
                 (userWithUsernameNotFound
                    (getFunctionSignature "CheckUserWithUsername") (trim name)))).
Proof.
  intros Hinv Hstrong Htrim Hcreate.
  destruct (createUser_mem_Return_inv _ _ _ _ _ _ Hcreate) as [He [Hn [Hp Hfree]]].
  rewrite (createUser_mem_run em name pw w Hinv He Hn Hp Hfree) in Hcreate.
  inversion Hcreate as [[Hu Hw1]]. clear Hcreate.
  assert (Hnever : forall salt, checkpw (trim pw) (hashpw salt 16 pw) = false).
  { intros salt. destruct (checkpw (trim pw) (hashpw salt 16 pw)) eqn:Hc; [| reflexivity].
    exfalso. apply Htrim. eapply checkpw_sound_72. exact Hc. }
  split; [reflexivity |]. split; [| split].
  - intros name' Hn'.
    apply (checkUserWithUsername_compares_password_to_hash MemStore name' pw _ Hn').
  - intros name' w2 Hcheck. revert Hcheck. run.
    destruct (isAlphanumeric (trim name')); cbn [negb]; [| discriminate].
    intros Hloop.
    apply checkUserWithUsername_loop_Return in Hloop.
    destruct Hloop as [c [_ [Hc Hclean]]].
    apply cleanUserObject_password in Hclean.
    cbn [set_id password new_user] in Hclean.
    rewrite <- Hclean, Hnever in Hc. discriminate Hc.
  - intros Hname. run. rewrite Hn. cbn [negb].
    apply checkUserWithUsername_loop_Throw.
    cbn [MemStore coll_find mem_find fst store docs].
    intros c Hin. apply filter_In in Hin. destruct Hin as [Hin Hm].
    apply in_app_or in Hin. destruct Hin as [Hin | [<- | []]].
    + exfalso. apply (Hname c Hin). cbn [matches] in Hm.
      apply String.eqb_eq. exact Hm.
    + cbn [set_id password new_user]. apply Hnever.
Qed.


(** ** Further properties *)

(** *** Cleaning *)

Lemma cleanUserObject_Return_id (u r : User) :
  cleanUserObject (Some u) = Return r ->
  exists i, _id u = Some i /\ r = set_id (Some (StrId (toString i))) u.
Proof.
  unfold cleanUserObject. destruct (_id u) as [i |]; intros E; inversion E.
  exists i. split; reflexivity.
Qed.

Lemma cleanUserObject_Throw (u : User) (t : Thrown) :
  cleanUserObject (Some u) = Throw t -> t = TypeError /\ _id u = None.
Proof.
  unfold cleanUserObject. destruct (_id u); intros E; inversion E.
  split; reflexivity.
Qed.

(** X5: [cleanUserObjects] cleans the objects one by one, in place and in
    order: it returns them all, each with its [_id] turned into a string and
    nothing else changed, exactly when each has an [_id]; otherwise the whole
    call fails with the [TypeError] of the first object without one. *)
Theorem cleanUserObjects_cleans_each_or_TypeError (us : list User) :
  (forall rs,
     cleanUserObjects us = Return rs
     <-> Forall2 (fun u r => exists i, _id u = Some i
                                       /\ r = set_id (Some (StrId (toString i))) u) us rs)
  /\ (forall t, cleanUserObjects us = Throw t ->
                t = TypeError /\ exists u, In u us /\ _id u = None)
  /\ ((exists u, In u us /\ _id u = None) -> cleanUserObjects us = Throw TypeError).
Proof.
  induction us as [| u rest [IHr [IHt IHn]]].
  - split; [| split].
    + intros rs. cbn [cleanUserObjects]. split.
      * intros E. inversion E. constructor.
      * intros F. inversion F. reflexivity.
    + intros t E. discriminate E.
    + intros [u [[] _]].
  - assert (Hthrow : forall t, cleanUserObjects (u :: rest) = Throw t ->
                       t = TypeError /\ exists d, In d (u :: rest) /\ _id d = None).
    { intros t. cbn [cleanUserObjects].
      destruct (cleanUserObject (Some u)) as [u' |t'] eqn:Hu.
      - destruct (cleanUserObjects rest) as [rest' | t''] eqn:Hrest;
          intros E; inversion E; subst.
        destruct (IHt t eq_refl) as [Ht [d [Hd Hnone]]].
        split; [exact Ht |]. exists d. split; [right; exact Hd | exact Hnone].
      - intros E. inversion E; subst.
        destruct (cleanUserObject_Throw _ _ Hu) as [Ht Hnone].
        split; [exact Ht |]. exists u. split; [left; reflexivity | exact Hnone]. }
    assert (Hret : forall rs,
               cleanUserObjects (u :: rest) = Return rs
               <-> Forall2 (fun d r => exists i, _id d = Some i
                                                 /\ r = set_id (Some (StrId (toString i))) d)
                     (u :: rest) rs).
    { intros rs. cbn [cleanUserObjects]. split.
      - destruct (cleanUserObject (Some u)) as [u' | t'] eqn:Hu; [| discriminate].
        destruct (cleanUserObjects rest) as [rest' | t''] eqn:Hrest; [| discriminate].
        intros E. inversion E; subst. constructor.
        + apply cleanUserObject_Return_id. exact Hu.
        + apply IHr. reflexivity.
      - intros F. inversion F as [| ? r ? rs' [i [Hi Hr]] Hrest']; subst.
        unfold cleanUserObject. rewrite Hi.
        rewrite (proj2 (IHr rs') Hrest'). reflexivity. }
    split; [exact Hret |]. split; [exact Hthrow |].
    intros [d [Hd Hnone]].
    destruct (cleanUserObjects (u :: rest)) as [rs | t] eqn:Hrun.
    + exfalso. pose proof (proj1 (Hret rs) eq_refl) as Hall.
      clear - Hall Hd Hnone.
      induction Hall as [| x r l l' [i [Hi _]] _ IH]; [destruct Hd |].
      destruct Hd as [<- | Hd]; [rewrite Hnone in Hi; discriminate Hi | apply IH; exact Hd].
    + destruct (Hthrow t eq_refl) as [-> _]. reflexivity.
Qed.

Lemma cleanUserObjects_issued (st : MemState) (l : list User) :
  (forall u, In u l -> issued st u) ->
  exists rs,
    cleanUserObjects l = Return rs
    /\ Forall2 (fun u r => exists o, _id u = Some (ObjId o)
                                     /\ r = set_id (Some (StrId (toHexString o))) u) l rs.
Proof.
  induction l as [| u rest IH]; intros Hiss.
  - exists []. split; [reflexivity | constructor].
  - destruct (IH (fun d Hd => Hiss d (or_intror Hd))) as [rs [Hrun Hall]].
    destruct (Hiss u (or_introl eq_refl)) as [o [Ho _]].
    exists (set_id (Some (StrId (toHexString o))) u :: rs).
    cbn [cleanUserObjects]. unfold cleanUserObject. rewrite Ho, Hrun.
    split; [reflexivity |]. constructor; [| exact Hall].
    exists o. split; [exact Ho | reflexivity].
Qed.

Lemma filter_matches_Everything (l : list User) :
  List.filter (matches Everything) l = l.
Proof.
  induction l as [| u rest IH]; [reflexivity |].
  cbn [List.filter matches]. rewrite IH. reflexivity.
Qed.

(** X6: [getAllUsers] returns every record of the collection, in the
    collection's order, each with its [_id] as the hexadecimal string of its
    identifier and its other fields (the password hash among them) as stored;
    it makes one [find] and leaves the collection as it was. *)
Theorem getAllUsers_returns_every_record_cleaned (w : World MemState) :
  store_inv (store w) ->
  exists rs,
    getAllUsers MemStore w
    = (Return rs,
       {| store := store w; drawn := drawn w;
          trace := (trace w ++ [EvGetUserCollection; EvFind Everything;
                                EvConsoleLog (allUsersRetrievedFromDatabase
                                                (getFunctionSignature "GetAllUsers"))])%list |})
    /\ Forall2 (fun u r => exists o, _id u = Some (ObjId o)
                                     /\ r = set_id (Some (StrId (toHexString o))) u)
         (docs (store w)) rs.
Proof.
  intros [_ [Hiss _]].
  destruct (cleanUserObjects_issued (store w) (docs (store w)) Hiss) as [rs [Hrun Hall]].
  exists rs. split; [| exact Hall].
  run. cbn [MemStore coll_find mem_find fst snd].
  rewrite filter_matches_Everything, Hrun, <- !app_assoc. reflexivity.
Qed.

(** *** Round trips *)

(** X7: what [createUser] returns is what [getUserById] returns for the
    identifier in it, provided the hexadecimal form of the new identifier is
    one [ObjectId.isValid] accepts and [new ObjectId] reads back. *)
Theorem createUser_then_getUserById_round_trip
  (em name pw : string) (w w1 : World MemState) (u : User) :
  store_inv (store w) ->
  createUser MemStore em name pw w = (Return u, w1) ->
  ObjectId_isValid (toHexString (nextId (store w))) = true ->
  ObjectId_new (toHexString (nextId (store w))) = nextId (store w) ->
  _id u = Some (StrId (toHexString (nextId (store w))))
  /\ fst (getUserById MemStore (toHexString (nextId (store w))) w1) = Return u.
Proof.
  intros Hinv Hcreate Hvalid Hnew.
  destruct (createUser_mem_Return_inv _ _ _ _ _ _ Hcreate) as [He [Hn [Hp Hfree]]].
  rewrite (createUser_mem_run em name pw w Hinv He Hn Hp Hfree) in Hcreate.
  inversion Hcreate as [[Hu Hw1]]. clear Hcreate.
  split; [reflexivity |].
  run. rewrite Hvalid, Hnew. cbn [negb].
  cbn [MemStore coll_findOne mem_findOne fst snd store docs].
  rewrite find_snoc_none.
  2:{ intros d Hin. apply issued_not_next. destruct Hinv as [_ [Hiss _]].
      apply Hiss. exact Hin. }
  replace (matches (ById (nextId (store w)))
             (set_id (Some (ObjId (nextId (store w)))) (new_user em name pw w)))
    with true by (symmetry; apply matches_ById_true; reflexivity).
  reflexivity.
Qed.


(** *** Where each operation leaves the collection *)

Lemma createUser_mem_store (em name pw : string) (w : World MemState) :
  store (snd (createUser MemStore em name pw w))
  = if isEmail (trim em) && isAlphanumeric (trim name) && isStrongPassword pw then
      match List.find (matches (ByEmail (trim em))) (docs (store w)) with
      | Some _ => store w
      | None => snd (mem_insertOne (new_user em name pw w) (store w))
      end
    else store w.
Proof.
  destruct (isEmail (trim em)) eqn:He; cbn [andb].
  2:{ unfold createUser. rewrite He. reflexivity. }
  destruct (isAlphanumeric (trim name)) eqn:Hn; cbn [andb].
  2:{ unfold createUser. rewrite He, Hn. reflexivity. }
  destruct (isStrongPassword pw) eqn:Hp.
  2:{ unfold createUser. rewrite He, Hn, Hp. reflexivity. }
  rewrite (createUser_valid_run MemStore em name pw w He Hn Hp).
  cbn [MemStore coll_findOne coll_insertOne mem_findOne mem_insertOne fst snd
       acknowledged insertedId].
  destruct (List.find (matches (ByEmail (trim em))) (docs (store w))); reflexivity.
Qed.

Lemma deleteUserById_mem_store (id : string) (w : World MemState) :
  store (snd (deleteUserById MemStore id w))
  = if ObjectId_isValid id then snd (mem_deleteOne (ById (ObjectId_new id)) (store w))
    else store w.
Proof.
  run. destruct (ObjectId_isValid id); cbn [negb]; [| reflexivity].
  cbn [MemStore coll_findOne coll_deleteOne mem_findOne fst snd].
  unfold mem_deleteOne.
  destruct (List.find (matches (ById (ObjectId_new id))) (docs (store w))) eqn:Hf.
  - cbn [fst snd store]. rewrite Hf. reflexivity.
  - reflexivity.
Qed.

Lemma addArticleToAuthor_mem_store (userId articleId : string) (w : World MemState) :
  store (snd (addArticleToAuthor MemStore userId articleId w))
  = if ObjectId_isValid userId && ObjectId_isValid articleId then
      snd (mem_addToSet (ById (ObjectId_new userId)) articleId (store w))
    else store w.
Proof.
  run. destruct (ObjectId_isValid userId); cbn [negb andb]; [| reflexivity].
  destruct (ObjectId_isValid articleId); cbn [negb]; [| reflexivity].
  cbn [MemStore coll_findOne coll_addToSet mem_findOne fst snd].
  destruct (Nat.eqb (modifiedCount
                       (fst (mem_addToSet (ById (ObjectId_new userId)) articleId (store w)))) 1);
    reflexivity.
Qed.

Lemma lookups_keep_mem_store (w : World MemState) :
  (forall id, store (snd (getUserById MemStore id w)) = store w)
  /\ store (snd (getAllUsers MemStore w)) = store w
  /\ (forall em pw, store (snd (checkUserWithEmail MemStore em pw w)) = store w)
  /\ (forall name pw, store (snd (checkUserWithUsername MemStore name pw w)) = store w).
Proof.
  split; [| split; [| split]].
  - intros id. run. destruct (ObjectId_isValid id); cbn [negb]; [| reflexivity].
    cbn [MemStore coll_findOne mem_findOne fst snd].
    destruct (List.find (matches (ById (ObjectId_new id))) (docs (store w))); reflexivity.
  - reflexivity.
  - intros em pw. run. destruct (isEmail (trim em)); cbn [negb]; [| reflexivity].
    rewrite checkUserWithEmail_loop_store. reflexivity.
  - intros name pw. run. destruct (isAlphanumeric (trim name)); cbn [negb]; [| reflexivity].
    rewrite checkUserWithUsername_loop_store. reflexivity.
Qed.

(** *** A user who is not there *)

(** X8: for a valid identifier that no record has, [deleteUserById] throws
    the "user not found" message after its lookup and never calls
    [deleteOne], whereas [addArticleToAuthor], which does not look the user
    up, sends the update and reports "article not added"; neither changes the
    collection. *)
Theorem absent_user_delete_and_addArticle (id : string) (w : World MemState) :
  ObjectId_isValid id = true ->
  (forall u, In u (docs (store w)) -> _id u <> Some (ObjId (ObjectId_new id))) ->
  deleteUserById MemStore id w
  = (Throw (ThrowMessage (userNotFound (getFunctionSignature "DeleteUserById") id)),
     {| store := store w; drawn := drawn w;
        trace := (trace w ++ [EvGetUserCollection;
                              EvFindOne (ById (ObjectId_new id))])%list |})
  /\ forall articleId,
       ObjectId_isValid articleId = true ->
       addArticleToAuthor MemStore id articleId w
       = (Throw (ThrowMessage (articleNotAddedToUser
                                 (getFunctionSignature "AddArticleToAuthor") id articleId)),
          {| store := store w; drawn := drawn w;
             trace := (trace w ++ [EvGetUserCollection;
                                   EvUpdateOne (ById (ObjectId_new id)) articleId])%list |}).
Proof.
  intros Hok Habs. pose proof (find_by_id_absent _ _ Habs) as Hf. split.
  - run. rewrite Hok. cbn [negb].
    cbn [MemStore coll_findOne mem_findOne fst snd]. rewrite Hf.
    rewrite <- app_assoc. reflexivity.
  - intros articleId Ha. run. rewrite Hok, Ha. cbn [negb].
    cbn [MemStore coll_addToSet]. unfold mem_addToSet. rewrite Hf.
    cbn [fst snd modifiedCount Nat.eqb negb]. rewrite <- app_assoc. reflexivity.
Qed.

(** *** The first addition of an article *)

Lemma update_first_split (p : User -> bool) (g : User -> User) (l : list User) (u : User) :
  List.find p l = Some u ->
  exists l1 l2, l = (l1 ++ u :: l2)%list /\ update_first p g l = (l1 ++ g u :: l2)%list.
Proof.
  induction l as [| x rest IH]; intros Hf; [discriminate Hf |].
  cbn [List.find update_first] in *. destruct (p x) eqn:Hp.
  - inversion Hf; subst. exists [], rest. split; reflexivity.
  - destruct (IH Hf) as [l1 [l2 [E1 E2]]].
    exists (x :: l1), l2. cbn [app]. rewrite E1 at 1. rewrite E2.
    split; reflexivity.
Qed.

(** X9: the first time an article is added to a stored user,
    [addArticleToAuthor] appends it to that user's articles, leaves every
    other record and the order of the collection as they were, and returns
    the updated record cleaned, which is what [getUserById] returns for the
    user from then on; the invariants of the collection still hold. *)
Theorem addArticleToAuthor_appends_and_returns_updated
  (userId articleId : string) (w : World MemState) (u : User) :
  store_inv (store w) ->
  ObjectId_isValid userId = true -> ObjectId_isValid articleId = true ->
  In u (docs (store w)) -> _id u = Some (ObjId (ObjectId_new userId)) ->
  ~ In articleId (articles u) ->
  let updated := set_articles (articles u ++ [articleId]) u in
  let returned := set_id (Some (StrId (toHexString (ObjectId_new userId)))) updated in
  exists w' l1 l2,
    addArticleToAuthor MemStore userId articleId w = (Return returned, w')
    /\ docs (store w) = (l1 ++ u :: l2)%list
    /\ docs (store w') = (l1 ++ updated :: l2)%list
    /\ fst (getUserById MemStore userId w') = Return returned
    /\ store_inv (store w').
Proof.
  intros Hinv Hu Ha Hin Hid Hnew updated returned.
  pose proof Hinv as [Hnd _].
  pose proof (find_by_id_unique _ _ _ Hnd Hin Hid) as Hf.
  assert (Hex : existsb (String.eqb articleId) (articles u) = false).
  { destruct (existsb (String.eqb articleId) (articles u)) eqn:E; [| reflexivity].
    exfalso. apply Hnew. apply existsb_eqb_In. exact E. }
  pose proof (addArticleToAuthor_mem_run userId articleId w u Hu Ha Hf) as Hrun.
  cbv zeta in Hrun. rewrite Hex in Hrun. fold updated in Hrun.
  destruct (update_first_split (matches (ById (ObjectId_new userId)))
              (fun d => set_articles (articles d ++ [articleId]) d) _ _ Hf)
    as [l1 [l2 [E1 E2]]].
  assert (Hf' : List.find (matches (ById (ObjectId_new userId)))
                  (update_first (matches (ById (ObjectId_new userId)))
                     (fun d => set_articles (articles d ++ [articleId]) d)
                     (docs (store w))) = Some updated).
  { apply (find_update_first _ (fun d => set_articles (articles d ++ [articleId]) d)
             _ _ Hf).
    destruct (find_some _ _ Hf) as [_ Hm]. exact Hm. }
  eexists. exists l1, l2. split; [rewrite Hrun; unfold cleanUserObject, updated;
                                  cbn [set_articles _id]; rewrite Hid; reflexivity |].
  cbn [store docs]. split; [exact E1 |]. split; [exact E2 |]. split.
  - run. rewrite Hu. cbn [negb].
    cbn [MemStore coll_findOne mem_findOne fst snd store docs].
    rewrite Hf'. cbn [fst]. unfold cleanUserObject, updated.
    cbn [set_articles _id]. rewrite Hid. reflexivity.
  - replace {| docs := update_first (matches (ById (ObjectId_new userId)))
                         (fun d => set_articles (articles d ++ [articleId]) d)
                         (docs (store w));
               nextId := nextId (store w) |}
      with (snd (mem_addToSet (ById (ObjectId_new userId)) articleId (store w))).
    + apply store_inv_addToSet. exact Hinv.
    + unfold mem_addToSet. rewrite Hf, Hex. reflexivity.
Qed.


(** *** Invariants *)

(** X10: the three operations that write let only validated data in: if
    every record has a valid email, an alphanumeric username, the hash at
    cost 16 of a strong password and articles that are valid identifiers,
    then so has every record after [createUser], [deleteUserById] or
    [addArticleToAuthor], on any arguments. *)
Theorem writers_keep_records_validated (w : World MemState) :
  (forall u, In u (docs (store w)) -> validated u) ->
  (forall em name pw u,
     In u (docs (store (snd (createUser MemStore em name pw w)))) -> validated u)
  /\ (forall id u,
        In u (docs (store (snd (deleteUserById MemStore id w)))) -> validated u)
  /\ (forall userId articleId u,
        In u (docs (store (snd (addArticleToAuthor MemStore userId articleId w)))) ->
        validated u).
Proof.
  intros Hall. split; [| split].
  - intros em name pw u. rewrite createUser_mem_store.
    destruct (isEmail (trim em) && isAlphanumeric (trim name) && isStrongPassword pw)
      eqn:Hvalid; [| apply Hall].
    destruct (List.find (matches (ByEmail (trim em))) (docs (store w))); [apply Hall |].
    apply andb_prop in Hvalid. destruct Hvalid as [Hvalid Hp].
    apply andb_prop in Hvalid. destruct Hvalid as [He Hn].
    cbn [mem_insertOne snd docs]. intros Hin. apply in_app_or in Hin.
    destruct Hin as [Hin | [<- | []]]; [apply Hall; exact Hin |].
    unfold validated. cbn [set_id new_user email username password articles].
    split; [exact He |]. split; [exact Hn |]. split; [| constructor].
    exists (gensalt (drawn w)), pw. split; [exact Hp | reflexivity].
  - intros id u. rewrite deleteUserById_mem_store.
    destruct (ObjectId_isValid id); [| apply Hall].
    unfold mem_deleteOne.
    destruct (List.find (matches (ById (ObjectId_new id))) (docs (store w)));
      [| apply Hall].
    cbn [snd docs]. intros Hin. apply Hall. apply (remove_first_incl _ _ _ Hin).
  - intros userId articleId u. rewrite addArticleToAuthor_mem_store.
    destruct (ObjectId_isValid userId && ObjectId_isValid articleId) eqn:Hvalid;
      [| apply Hall].
    apply andb_prop in Hvalid. destruct Hvalid as [_ Ha].
    unfold mem_addToSet.
    destruct (List.find (matches (ById (ObjectId_new userId))) (docs (store w)));
      [| apply Hall].
    destruct (existsb (String.eqb articleId) (articles u0)); [apply Hall |].
    cbn [snd docs]. intros Hin. apply update_first_In in Hin.
    destruct Hin as [Hin | [x [Hx [_ ->]]]]; [apply Hall; exact Hin |].
    destruct (Hall x Hx) as [He [Hn [Hpw Hart]]].
    unfold validated. cbn [set_articles email username password articles].
    split; [exact He |]. split; [exact Hn |]. split; [exact Hpw |].
    apply Forall_app. split; [exact Hart |]. constructor; [exact Ha | constructor].
Qed.

(** X11: the four operations that only look things up ([getUserById],
    [getAllUsers] and the two authentications) never call [insertOne],
    [deleteOne] or [updateOne], on any collection and any arguments; on the
    collection in memory they leave it exactly as it was. *)
Theorem lookups_never_write :
  (forall (St : Type) (coll : Collection St) (w : World St),
     (forall id,
        filter is_store_write (trace (snd (getUserById coll id w)))
        = filter is_store_write (trace w))
     /\ filter is_store_write (trace (snd (getAllUsers coll w)))
        = filter is_store_write (trace w)
     /\ (forall em pw,
           filter is_store_write (trace (snd (checkUserWithEmail coll em pw w)))
           = filter is_store_write (trace w))
     /\ (forall name pw,
           filter is_store_write (trace (snd (checkUserWithUsername coll name pw w)))
           = filter is_store_write (trace w)))
  /\ (forall w : World MemState,
        (forall id, store (snd (getUserById MemStore id w)) = store w)
        /\ store (snd (getAllUsers MemStore w)) = store w
        /\ (forall em pw, store (snd (checkUserWithEmail MemStore em pw w)) = store w)
        /\ (forall name pw, store (snd (checkUserWithUsername MemStore name pw w)) = store w)).
Proof.
  split.
  - intros St coll w. apply lookups_make_no_write.
  - intros w. apply lookups_keep_mem_store.
Qed.

Lemma remove_first_NoDup_map {A : Type} (f : User -> A) (p : User -> bool) (l : list User) :
  NoDup (map f l) -> NoDup (map f (remove_first p l)).
Proof.
  induction l as [| x rest IH]; intros Hnd; [exact Hnd |].
  cbn [map] in Hnd. inversion Hnd as [| ? ? Hnotin Hnd']; subst.
  cbn [remove_first]. destruct (p x); [exact Hnd' |].
  cbn [map]. constructor; [| apply IH; exact Hnd'].
  intros Hin. apply Hnotin. apply in_map_iff in Hin.
  destruct Hin as [d [Hd Hin]]. rewrite <- Hd. apply in_map.
  apply (remove_first_incl p). exact Hin.
Qed.

Lemma update_first_map {A : Type} (f : User -> A) (p : User -> bool) (g : User -> User)
  (l : list User) :
  (forall d, f (g d) = f d) -> map f (update_first p g l) = map f l.
Proof.
  intros Hg. induction l as [| x rest IH]; [reflexivity |].
  cbn [update_first]. destruct (p x); cbn [map].
  - rewrite Hg. reflexivity.
  - rewrite IH. reflexivity.
Qed.

(** X12: the three operations that write keep emails distinct: if no two
    records share an email, none do after [createUser] (which refuses an
    email already there), [deleteUserById] or [addArticleToAuthor], on any
    arguments. *)
Theorem writers_keep_emails_unique (w : World MemState) :
  NoDup (map email (docs (store w))) ->
  (forall em name pw,
     NoDup (map email (docs (store (snd (createUser MemStore em name pw w))))))
  /\ (forall id, NoDup (map email (docs (store (snd (deleteUserById MemStore id w))))))
  /\ (forall userId articleId,
        NoDup (map email
                 (docs (store (snd (addArticleToAuthor MemStore userId articleId w)))))).
Proof.
  intros Hnd. split; [| split].
  - intros em name pw. rewrite createUser_mem_store.
    destruct (isEmail (trim em) && isAlphanumeric (trim name) && isStrongPassword pw);
      [| exact Hnd].
    destruct (List.find (matches (ByEmail (trim em))) (docs (store w))) eqn:Hf;
      [exact Hnd |].
    cbn [mem_insertOne snd docs]. rewrite map_app. cbn [map set_id new_user email].
    apply NoDup_app; [exact Hnd | repeat constructor; intros [] |].
    intros e Hin [He | []]. subst e.
    apply in_map_iff in Hin. destruct Hin as [d [Hd Hin]].
    apply (find_none _ _ Hf) in Hin. cbn [matches] in Hin.
    rewrite Hd, String.eqb_refl in Hin. discriminate Hin.
  - intros id. rewrite deleteUserById_mem_store.
    destruct (ObjectId_isValid id); [| exact Hnd].
    unfold mem_deleteOne.
    destruct (List.find (matches (ById (ObjectId_new id))) (docs (store w)));
      [| exact Hnd].
    cbn [snd docs]. apply remove_first_NoDup_map. exact Hnd.
  - intros userId articleId. rewrite addArticleToAuthor_mem_store.
    destruct (ObjectId_isValid userId && ObjectId_isValid articleId); [| exact Hnd].
    unfold mem_addToSet.
    destruct (List.find (matches (ById (ObjectId_new userId))) (docs (store w)));
      [| exact Hnd].
    destruct (existsb (String.eqb articleId) (articles u)); [exact Hnd |].
    cbn [snd docs]. rewrite update_first_map; [exact Hnd | reflexivity].
Qed.

(** *** Creation, then authentication *)

Lemma filter_snoc_only (p : User -> bool) (l : list User) (d : User) :
  (forall x, In x l -> p x = false) -> p d = true ->
  List.filter p (l ++ [d]) = [d].
Proof.
  intros Hall Hd. rewrite filter_app. cbn [List.filter]. rewrite Hd.
  replace (List.filter p l) with (@nil User); [reflexivity |].
  symmetry. induction l as [| x rest IH]; [reflexivity |].
  cbn [List.filter]. rewrite (Hall x (or_introl eq_refl)).
  apply IH. intros y Hy. apply Hall. right. exact Hy.
Qed.

(** X13: a user created with a password that trimming leaves alone, under a
    username no other record has, is returned by [checkUserWithUsername] for
    that username and password: the result is the user [createUser]
    returned. *)
Theorem createUser_then_checkUserWithUsername_returns_user
  (em name pw : string) (w w1 : World MemState) (u : User) :
  store_inv (store w) ->
  createUser MemStore em name pw w = (Return u, w1) ->
  trim pw = pw ->
  (forall c, In c (docs (store w)) -> username c <> trim name) ->
  fst (checkUserWithUsername MemStore name pw w1) = Return u.
Proof.
  intros Hinv Hcreate Htrim Hname.
  destruct (createUser_mem_Return_inv _ _ _ _ _ _ Hcreate) as [He [Hn [Hp Hfree]]].
  rewrite (createUser_mem_run em name pw w Hinv He Hn Hp Hfree) in Hcreate.
  inversion Hcreate as [[Hu Hw1]]. clear Hcreate.
  apply (checkUserWithUsername_accepts_correct_password MemStore name pw
           (gensalt (drawn w)) 16 _ _ [] (ObjId (nextId (store w))) Hn).
  - cbn [MemStore coll_find mem_find fst store docs].
    apply filter_snoc_only.
    + intros x Hx. cbn [matches]. apply String.eqb_neq. apply Hname. exact Hx.
    + cbn [matches set_id new_user username]. apply String.eqb_refl.
  - cbn [set_id new_user password]. rewrite Htrim. reflexivity.
  - reflexivity.
Qed.

(** X14: the hash in the user [createUser] returns opens the account on the
    email path: [checkUserWithEmail] with the user's email and, in place of
    the password, the [password] field of the returned user (which trimming
    leaves alone) returns that user. *)
Theorem checkUserWithEmail_accepts_the_returned_hash
  (em name pw : string) (w w1 : World MemState) (u : User) :
  store_inv (store w) ->
  createUser MemStore em name pw w = (Return u, w1) ->
  trim (password u) = password u ->
  fst (checkUserWithEmail MemStore em (password u) w1) = Return u.
Proof.
  intros Hinv Hcreate Htrim.
  destruct (createUser_mem_Return_inv _ _ _ _ _ _ Hcreate) as [He [Hn [Hp Hfree]]].
  rewrite (createUser_mem_run em name pw w Hinv He Hn Hp Hfree) in Hcreate.
  inversion Hcreate as [[Hu Hw1]]. clear Hcreate. subst u.
  cbn [set_id password new_user] in Htrim |- *.
  apply (checkUserWithEmail_accepts_stored_hash MemStore em _ _ _ []
           (ObjId (nextId (store w))) He).
  - cbn [MemStore coll_find mem_find fst store docs].
    apply filter_snoc_only.
    + intros x Hx. cbn [matches]. apply String.eqb_neq. apply Hfree. exact Hx.
    + cbn [matches set_id new_user email]. apply String.eqb_refl.
  - exact Htrim.
  - reflexivity.
Qed.

(** *** Other records *)

Lemma getUserById_mem_fst (id : string) (w : World MemState) :
  fst (getUserById MemStore id w)
  = if ObjectId_isValid id then
      match List.find (matches (ById (ObjectId_new id))) (docs (store w)) with
      | None => Throw (ThrowMessage (userNotFound (getFunctionSignature "GetUserById") id))
      | Some u => cleanUserObject (Some u)
      end
    else Throw (ThrowMessage (objectIdNotValid (getFunctionSignature "GetUserById") id)).
Proof.
  run. destruct (ObjectId_isValid id); cbn [negb]; [| reflexivity].
  cbn [MemStore coll_findOne mem_findOne fst snd].
  destruct (List.find (matches (ById (ObjectId_new id))) (docs (store w))); reflexivity.
Qed.

Lemma find_remove_first_other (p q : User -> bool) (l : list User) :
  (forall x, p x = true -> q x = false) ->
  List.find q (remove_first p l) = List.find q l.
Proof.
  intros Hpq. induction l as [| x rest IH]; [reflexivity |].
  cbn [remove_first List.find]. destruct (p x) eqn:Hp.
  - rewrite (Hpq x Hp). reflexivity.
  - cbn [List.find]. rewrite IH. reflexivity.
Qed.

Lemma find_update_first_other (p q : User -> bool) (g : User -> User) (l : list User) :
  (forall x, p x = true -> q x = false) -> (forall x, q (g x) = q x) ->
  List.find q (update_first p g l) = List.find q l.
Proof.
  intros Hpq Hg. induction l as [| x rest IH]; [reflexivity |].
  cbn [update_first List.find]. destruct (p x) eqn:Hp.
  - cbn [List.find]. rewrite Hg, (Hpq x Hp). reflexivity.
  - cbn [List.find]. rewrite IH. reflexivity.
Qed.

Lemma matches_ById_disjoint (o o' : ObjectId) (x : User) :
  o' <> o -> matches (ById o) x = true -> matches (ById o') x = false.
Proof.
  intros Hne Hm. apply matches_ById_true in Hm.
  destruct (matches (ById o') x) eqn:Hm'; [| reflexivity].
  apply matches_ById_true in Hm'. rewrite Hm in Hm'. inversion Hm'. congruence.
Qed.

(** X15: deleting a user or adding an article to a user touches no other
    user: whatever [deleteUserById] or [addArticleToAuthor] does for one
    identifier, [getUserById] for an identifier that denotes another ObjectId
    answers afterwards what it answered before. *)
Theorem writes_leave_other_users_alone (id other : string) (w : World MemState) :
  ObjectId_new other <> ObjectId_new id ->
  fst (getUserById MemStore other (snd (deleteUserById MemStore id w)))
  = fst (getUserById MemStore other w)
  /\ forall articleId,
       fst (getUserById MemStore other (snd (addArticleToAuthor MemStore id articleId w)))
       = fst (getUserById MemStore other w).
Proof.
  intros Hne. split.
  - rewrite !getUserById_mem_fst, deleteUserById_mem_store.
    destruct (ObjectId_isValid id); [| reflexivity].
    unfold mem_deleteOne.
    destruct (List.find (matches (ById (ObjectId_new id))) (docs (store w)));
      [| reflexivity].
    cbn [snd docs]. rewrite find_remove_first_other; [reflexivity |].
    intros x. apply matches_ById_disjoint. exact Hne.
  - intros articleId. rewrite !getUserById_mem_fst, addArticleToAuthor_mem_store.
    destruct (ObjectId_isValid id && ObjectId_isValid articleId); [| reflexivity].
    unfold mem_addToSet.
    destruct (List.find (matches (ById (ObjectId_new id))) (docs (store w)));
      [| reflexivity].
    destruct (existsb (String.eqb articleId) (articles u)); [reflexivity |].
    cbn [snd docs]. rewrite find_update_first_other; [reflexivity | |].
    + intros x. apply matches_ById_disjoint. exact Hne.
    + intros x. reflexivity.
Qed.


(** *** One email, one account *)

(** X16: once [createUser] has returned a user for an email, a second
    [createUser] with that email is refused with the "email already exists"
    message, under any valid username and password, and changes nothing. *)
Theorem createUser_twice_same_email_conflicts
  (em name pw name' pw' : string) (w w1 : World MemState) (u : User) :
  store_inv (store w) ->
  createUser MemStore em name pw w = (Return u, w1) ->
  isAlphanumeric (trim name') = true -> isStrongPassword pw' = true ->
  exists w2,
    createUser MemStore em name' pw' w1
    = (Throw (ThrowMessage (userWithEmailAlreadyExists
                              (getFunctionSignature "CreateUser") (trim em))), w2)
    /\ store w2 = store w1.
Proof.
  intros Hinv Hcreate Hn' Hp'.
  destruct (createUser_mem_Return_inv _ _ _ _ _ _ Hcreate) as [He [Hn [Hp Hfree]]].
  rewrite (createUser_mem_run em name pw w Hinv He Hn Hp Hfree) in Hcreate.
  inversion Hcreate as [[Hu Hw1]]. clear Hcreate.
  rewrite (createUser_valid_run MemStore em name' pw' _ He Hn' Hp').
  cbn [MemStore coll_findOne mem_findOne fst snd store docs].
  match goal with |- context [List.find ?p ?l] => destruct (List.find p l) eqn:Hf end.
  - eexists. split; reflexivity.
  - exfalso.
    assert (Hin : In (set_id (Some (ObjId (nextId (store w)))) (new_user em name pw w))
                    (docs (store w)
                       ++ [set_id (Some (ObjId (nextId (store w)))) (new_user em name pw w)]))
      by (apply in_or_app; right; left; reflexivity).
    apply (find_none _ _ Hf) in Hin. cbn [matches set_id new_user email] in Hin.
    rewrite String.eqb_refl in Hin. discriminate Hin.
Qed.

(** X17: deleting a user frees the email: in a collection where emails are
    distinct, after [deleteUserById] of a stored user, [createUser] with that
    user's email (and a valid username and password) returns a user again. *)
Theorem deleteUserById_frees_the_email
  (id em name pw : string) (w : World MemState) (u : User) :
  store_inv (store w) -> NoDup (map email (docs (store w))) ->
  ObjectId_isValid id = true ->
  In u (docs (store w)) -> _id u = Some (ObjId (ObjectId_new id)) ->
  email u = trim em ->
  isEmail (trim em) = true -> isAlphanumeric (trim name) = true ->
  isStrongPassword pw = true ->
  exists r w2,
    createUser MemStore em name pw (snd (deleteUserById MemStore id w)) = (Return r, w2)
    /\ email r = email u /\ username r = trim name.
Proof.
  intros Hinv Hemails Hok Hin Hid Hemail He Hn Hp.
  pose proof Hinv as [Hnd _].
  assert (Hstore : store (snd (deleteUserById MemStore id w))
                   = snd (mem_deleteOne (ById (ObjectId_new id)) (store w))).
  { rewrite deleteUserById_mem_store, Hok. reflexivity. }
  assert (Hinv' : store_inv (store (snd (deleteUserById MemStore id w)))).
  { rewrite Hstore. apply store_inv_deleteOne. exact Hinv. }
  assert (Hfree : forall d, In d (docs (store (snd (deleteUserById MemStore id w)))) ->
                            email d <> trim em).
  { rewrite Hstore. unfold mem_deleteOne.
    rewrite (find_by_id_unique _ _ _ Hnd Hin Hid). cbn [snd docs].
    destruct (remove_first_by_id_gone _ _ _ Hnd Hin Hid) as [l1 [l2 [E1 [E2 _]]]].
    rewrite E2. rewrite E1, map_app in Hemails. cbn [map] in Hemails.
    apply NoDup_remove_2 in Hemails.
    intros d Hd Heq. apply Hemails. rewrite <- map_app, Hemail, <- Heq.
    apply in_map. exact Hd. }
  rewrite (createUser_mem_run em name pw _ Hinv' He Hn Hp Hfree).
  do 2 eexists. split; [reflexivity |].
  cbn [set_id new_user email username]. split; [symmetry; exact Hemail | reflexivity].
Qed.


End Properties.

(** * The reference collaborators meet the assumptions *)

Module ReferenceLaws.

Import Reference.

Lemma ref_checkpw_complete (salt : string) (rounds : nat) (data : string) :
  checkpw data (hashpw salt rounds data) = true.
Proof.
  cbn. apply String.eqb_refl.
Qed.

Lemma ref_checkpw_sound (salt : string) (rounds : nat) (data data' : string) :
  checkpw data' (hashpw salt rounds data) = true -> data' = data.
Proof.
  cbn. intros E. apply String.eqb_eq in E. symmetry. exact E.
Qed.

Lemma ref_hashpw_not_plain (salt : string) (rounds : nat) (data : string) :
  hashpw salt rounds data <> data.
Proof.
  intros E. apply (f_equal String.length) in E. cbn in E. lia.
Qed.

Lemma to_hex_nonempty (k : nat) (n : N) : to_hex (Datatypes.S k) n <> "".
Proof.
  cbn [to_hex]. destruct (to_hex k (n / 16)); discriminate.
Qed.

Lemma ref_toHexString_nonempty (o : ObjectId) : toHexString o <> "".
Proof.
  apply (to_hex_nonempty 23).
Qed.

End ReferenceLaws.

(** * The scenario, run *)

Module Runs.

Import Reference Scenario ReferenceLaws.

Lemma alice_created_run :
  alice_created
  = (Return (set_id (Some (StrId alice_id)) alice_stored),
     {| store := {| docs := [alice_stored]; nextId := 1%N |};
        drawn := 1;
        trace := [EvBcryptHash alice_password 16; EvGetUserCollection;
                  EvFindOne (ByEmail alice_email);
                  EvInsertOne (set_id None alice_stored);
                  EvConsoleLog (userSuccessfullyCreated "CreateUser" alice_email);
                  EvFindOne (ById 0%N)] |}).
Proof.
  vm_compute. reflexivity.
Qed.

Lemma store_inv_with_alice : store_inv (store with_alice).
Proof.
  apply (store_inv_insertOne empty_store (set_id None alice_stored)).
  - apply store_inv_empty.
  - constructor.
Qed.

End Runs.

(** * The properties at work on the scenario *)

Import Reference Scenario ReferenceLaws Runs.

(** C1 at work: Alice, created with her password, is turned away by
    [checkUserWithEmail] when she supplies her email and that password. *)
Lemma checkUserWithEmail_rejects_correct_password_witness :
  fst alice_created = Return (set_id (Some (StrId alice_id)) alice_stored)
  /\ isEmail (trim alice_email) = true
  /\ fst (checkUserWithEmail MemStore alice_email alice_password with_alice)
     = Throw (ThrowMessage (userWithEmailNotFound "CreateUser" alice_email)).
Proof.
  split; [vm_compute; reflexivity |]. split; [vm_compute; reflexivity |].
  refine (proj1 (@checkUserWithEmail_rejects_correct_password _ _ _ _ ref_checkpw_sound
                   _ MemStore alice_email alice_password with_alice _ _)).
  - vm_compute. reflexivity.
  - intros c Hin. vm_compute in Hin. destruct Hin as [Hc | []]. subst c.
    vm_compute. intros E. discriminate E.
Defined.

(** C2 at work: the trace of that call. *)
Lemma checkUserWithEmail_rehashes_and_swaps_witness :
  isEmail (trim alice_email) = true
  /\ exists evs,
       trace (snd (checkUserWithEmail MemStore alice_email alice_password with_alice))
       = (trace with_alice ++ EvBcryptHash alice_password 16 :: EvGetUserCollection
            :: EvFind (ByEmail alice_email) :: evs)%list
       /\ Forall (compares_as password (fun _ => "$2b$16$BPassw0rd!") [alice_stored]) evs.
Proof.
  split; [vm_compute; reflexivity |].
  exact (@checkUserWithEmail_rehashes_and_swaps _ _ _ _ _ MemStore
           alice_email alice_password with_alice (eq_refl true)).
Defined.

(** C3 at work: the email of the specification's example. *)
Lemma createUser_invalid_input_throws_before_store_witness :
  isEmail (trim "not-an-email") = false
  /\ createUser MemStore "not-an-email" "alice" alice_password nobody
     = (Throw (ThrowMessage (notValid "CreateUser" "not-an-email" FEmail)), nobody).
Proof.
  split; [vm_compute; reflexivity |].
  assert (Hbad : isEmail (trim "not-an-email") = false
                 \/ isAlphanumeric (trim "alice") = false
                 \/ isStrongPassword alice_password = false)
    by (left; vm_compute; reflexivity).
  destruct (@createUser_invalid_input_throws_before_store _ _ _ _ _ MemStore
              "not-an-email" "alice" alice_password nobody Hbad)
    as [t [Hrun _]].
  rewrite Hrun. vm_compute in Hrun. inversion Hrun. reflexivity.
Defined.

(** C4 at work: Alice's email again, under another name and password. *)
Lemma createUser_email_in_use_conflict_witness :
  In alice_stored (docs (store with_alice))
  /\ exists w',
       createUser MemStore alice_email "alice2" "0ther!Pass" with_alice
       = (Throw (ThrowMessage (userWithEmailAlreadyExists "CreateUser" alice_email)), w')
       /\ store w' = store with_alice.
Proof.
  split; [left; reflexivity |].
  assert (He : isEmail (trim alice_email) = true) by (vm_compute; reflexivity).
  assert (Hn : isAlphanumeric (trim "alice2") = true) by (vm_compute; reflexivity).
  assert (Hp : isStrongPassword "0ther!Pass" = true) by (vm_compute; reflexivity).
  assert (Hin : In alice_stored (docs (store with_alice))) by (left; reflexivity).
  assert (Heq : email alice_stored = trim alice_email) by (vm_compute; reflexivity).
  destruct (@createUser_email_in_use_conflict _ _ _ _
              alice_email "alice2" "0ther!Pass" with_alice alice_stored
              He Hn Hp Hin Heq)
    as [t [w' [Hrun [Ht [_ [Hstore _]]]]]].
  exists w'. split; [| exact Hstore]. rewrite Hrun, Ht. reflexivity.
Defined.

(** C5 as stated fails: a valid triple, on a collection that satisfies the
    invariants, for which [createUser] returns no user. *)
Lemma createUser_valid_triple_not_returned :
  isEmail (trim alice_email) = true /\ isAlphanumeric (trim "alice2") = true
  /\ isStrongPassword "0ther!Pass" = true
  /\ store_inv (store with_alice)
  /\ forall r w',
       createUser MemStore alice_email "alice2" "0ther!Pass" with_alice <> (Return r, w').
Proof.
  split; [vm_compute; reflexivity |]. split; [vm_compute; reflexivity |].
  split; [vm_compute; reflexivity |]. split; [exact store_inv_with_alice |].
  intros r w' E. vm_compute in E. discriminate E.
Qed.

(** C5, amended, at work: Bob joins Alice. *)
Lemma createUser_returns_hashed_user_witness :
  exists r w' id,
    createUser MemStore "bob@example.com" "bob" alice_password with_alice = (Return r, w')
    /\ _id r = Some (StrId id) /\ id <> ""
    /\ password r <> alice_password
    /\ length (docs (store w')) = 2.
Proof.
  assert (He : isEmail (trim "bob@example.com") = true) by (vm_compute; reflexivity).
  assert (Hn : isAlphanumeric (trim "bob") = true) by (vm_compute; reflexivity).
  assert (Hp : isStrongPassword alice_password = true) by (vm_compute; reflexivity).
  assert (Hfree : forall u, In u (docs (store with_alice)) ->
                            email u <> trim "bob@example.com").
  { intros u Hin. vm_compute in Hin. destruct Hin as [Hu | []]. subst u.
    vm_compute. intros E. discriminate E. }
  destruct (@createUser_returns_hashed_user _ _ _ _
              ref_hashpw_not_plain ref_toHexString_nonempty
              "bob@example.com" "bob" alice_password with_alice
              store_inv_with_alice He Hn Hp Hfree)
    as [r [w' [id [Hrun [Hid [Hne [_ [_ [_ [Hpw [Hdocs _]]]]]]]]]]].
  exists r, w', id. split; [exact Hrun |]. split; [exact Hid |].
  split; [exact Hne |]. split; [exact Hpw |]. rewrite Hdocs. reflexivity.
Defined.

(** C6 at work: the identifier of the specification's example, an identifier
    nobody has, and Alice's. *)
Lemma getUserById_validates_finds_and_cleans_witness :
  ObjectId_isValid "123" = false
  /\ getUserById MemStore "123" with_alice
     = (Throw (ThrowMessage (objectIdNotValid "GetUserById" "123")), with_alice)
  /\ fst (getUserById MemStore "000000000000000000000001" with_alice)
     = Throw (ThrowMessage (userNotFound "GetUserById" "000000000000000000000001"))
  /\ fst (getUserById MemStore alice_id with_alice)
     = Return (set_id (Some (StrId alice_id)) alice_stored).
Proof.
  split; [vm_compute; reflexivity |]. split; [| split].
  - assert (Hbad : ObjectId_isValid "123" = false) by (vm_compute; reflexivity).
    destruct (proj1 (@getUserById_validates_finds_and_cleans _ _ "123" with_alice) Hbad)
      as [t [Ht [_ Hrun]]].
    rewrite (Hrun MemState MemStore with_alice), Ht. reflexivity.
  - assert (Hok : ObjectId_isValid "000000000000000000000001" = true)
      by (vm_compute; reflexivity).
    assert (Habs : forall u, In u (docs (store with_alice)) ->
                     _id u <> Some (ObjId (ObjectId_new "000000000000000000000001"))).
    { intros u Hin. vm_compute in Hin. destruct Hin as [Hu | []]. subst u.
      vm_compute. intros E. discriminate E. }
    destruct (proj1 (proj2 (@getUserById_validates_finds_and_cleans _ _
                              "000000000000000000000001" with_alice)) Hok Habs)
      as [t [Hrun [Ht _]]].
    rewrite Hrun, Ht. reflexivity.
  - assert (Hok : ObjectId_isValid alice_id = true) by (vm_compute; reflexivity).
    assert (Hin : In alice_stored (docs (store with_alice))) by (left; reflexivity).
    assert (Hid : _id alice_stored = Some (ObjId (ObjectId_new alice_id)))
      by (vm_compute; reflexivity).
    destruct (proj2 (proj2 (@getUserById_validates_finds_and_cleans _ _
                              alice_id with_alice))
                Hok alice_stored store_inv_with_alice Hin Hid)
      as [r [Hrun [Hr _]]].
    rewrite Hrun, Hr. vm_compute. reflexivity.
Defined.

(** C7 at work: Alice is deleted; and on the racing collection, where the
    other client deletes her between the lookup and the deletion, the call
    throws. *)
Lemma deleteUserById_removes_and_returns_snapshot_witness :
  ObjectId_isValid alice_id = true
  /\ (exists w',
        deleteUserById MemStore alice_id with_alice
        = (Return (set_id (Some (StrId alice_id)) alice_stored), w')
        /\ fst (getUserById MemStore alice_id w')
           = Throw (ThrowMessage (userNotFound "GetUserById" alice_id)))
  /\ fst (deleteUserById RacingStore alice_id with_alice)
     = Throw (ThrowMessage (userNotDeletedFromDatabase "DeleteUserById" alice_id)).
Proof.
  assert (Hok : ObjectId_isValid alice_id = true) by (vm_compute; reflexivity).
  split; [exact Hok |].
  destruct (@deleteUserById_removes_and_returns_snapshot _ _ alice_id Hok)
    as [Hmem Hany].
  split.
  - assert (Hin : In alice_stored (docs (store with_alice))) by (left; reflexivity).
    assert (Hid : _id alice_stored = Some (ObjId (ObjectId_new alice_id)))
      by (vm_compute; reflexivity).
    destruct (Hmem with_alice alice_stored store_inv_with_alice Hin Hid)
      as [w' [l1 [l2 [Hrun [_ [_ [Hget _]]]]]]].
    exists w'. split; [| exact Hget]. rewrite Hrun. vm_compute. reflexivity.
  - refine (proj1 (Hany MemState RacingStore with_alice alice_stored _ _)).
    + vm_compute. reflexivity.
    + vm_compute. intros E. discriminate E.
Defined.

(** C8 at work: the same article added to Alice twice. *)
Lemma addArticleToAuthor_twice_once_in_set_second_throws_witness :
  ObjectId_isValid alice_id = true /\ ObjectId_isValid article_id = true
  /\ fst (addArticleToAuthor MemStore alice_id article_id
            (snd (addArticleToAuthor MemStore alice_id article_id with_alice)))
     = Throw (ThrowMessage (articleNotAddedToUser "AddArticleToAuthor" alice_id article_id))
  /\ exists u',
       List.find (matches (ById 0%N))
         (docs (store (snd (addArticleToAuthor MemStore alice_id article_id
                              (snd (addArticleToAuthor MemStore alice_id article_id
                                      with_alice))))))
       = Some u'
       /\ count_occ string_dec (articles u') article_id = 1.
Proof.
  assert (Hu : ObjectId_isValid alice_id = true) by (vm_compute; reflexivity).
  assert (Ha : ObjectId_isValid article_id = true) by (vm_compute; reflexivity).
  assert (Hin : In alice_stored (docs (store with_alice))) by (left; reflexivity).
  assert (Hid : _id alice_stored = Some (ObjId (ObjectId_new alice_id)))
    by (vm_compute; reflexivity).
  split; [exact Hu |]. split; [exact Ha |].
  destruct (@addArticleToAuthor_twice_once_in_set_second_throws _ _
              alice_id article_id with_alice alice_stored
              store_inv_with_alice Hu Ha Hin Hid)
    as [Hthrow [_ [_ [u' [Hfind [_ Hcount]]]]]].
  split; [exact Hthrow |].
  exists u'. split; [exact Hfind | exact Hcount].
Defined.

(** C9 at work: on the racing collection the record is gone when
    [createUser] reads it back. *)
Lemma createUser_reread_empty_is_TypeError_witness :
  fst (coll_findOne RacingStore (ById 0%N)
         (snd (coll_insertOne RacingStore
                 (new_user alice_email "alice" alice_password nobody)
                 (store nobody))))
  = None
  /\ fst (createUser RacingStore alice_email "alice" alice_password nobody)
     = Throw TypeError
  /\ classify TypeError <> Some PersistenceError.
Proof.
  assert (He : isEmail (trim alice_email) = true) by (vm_compute; reflexivity).
  assert (Hn : isAlphanumeric (trim "alice") = true) by (vm_compute; reflexivity).
  assert (Hp : isStrongPassword alice_password = true) by (vm_compute; reflexivity).
  split; [vm_compute; reflexivity |].
  refine (proj2 (@createUser_reread_empty_is_TypeError _ _ _ _ _ RacingStore
                   alice_email "alice" alice_password nobody 0%N He Hn Hp _ _ _) _);
    vm_compute; reflexivity.
Defined.

(** The bcrypt that reads 72 bytes verifies what it hashed, and only data
    that agrees with it on those bytes. *)
Lemma ref_checkpw_hashpw (salt : string) (rounds : nat) (data data' : string) :
  ref_checkpw data' (ref_hashpw salt rounds data) = String.eqb data data'.
Proof.
  reflexivity.
Qed.

Lemma bcrypt72_complete (salt : string) (rounds : nat) (data : string) :
  checkpw (Bcrypt := Truncating.bcrypt72) data
    (hashpw (Bcrypt := Truncating.bcrypt72) salt rounds data) = true.
Proof.
  apply (eq_trans (ref_checkpw_hashpw salt rounds (bcrypt_key data) (bcrypt_key data))).
  apply String.eqb_refl.
Qed.

Lemma bcrypt72_sound_72 (salt : string) (rounds : nat) (data data' : string) :
  checkpw (Bcrypt := Truncating.bcrypt72) data'
    (hashpw (Bcrypt := Truncating.bcrypt72) salt rounds data) = true ->
  bcrypt_key data' = bcrypt_key data.
Proof.
  intros Hc.
  pose proof (eq_trans (eq_sym (ref_checkpw_hashpw salt rounds (bcrypt_key data)
                                  (bcrypt_key data'))) Hc) as E.
  apply String.eqb_eq in E. symmetry. exact E.
Qed.

(** C10 as stated fails: with a bcrypt that reads 72 bytes, Carol, created
    with a strong password of 72 bytes and a space, is returned by
    [checkUserWithUsername] for that very password. *)
Lemma checkUserWithUsername_returns_user_of_long_untrimmed_password :
  isStrongPassword Truncating.long_password = true
  /\ trim Truncating.long_password <> Truncating.long_password
  /\ (exists u, fst Truncating.carol_created = Return u)
  /\ fst (checkUserWithUsername (B := Truncating.bcrypt72) MemStore "carol"
            Truncating.long_password (snd Truncating.carol_created))
     = fst Truncating.carol_created.
Proof.
  split; [vm_compute; reflexivity |].
  split; [vm_compute; intros E; discriminate E |].
  split; [eexists; vm_compute; reflexivity |].
  vm_compute. reflexivity.
Qed.

(** C10, amended, at work, with the bcrypt that reads 72 bytes: Bob's
    password ends in a space within them; he is created with it and turned
    away with it. *)
Lemma checkUserWithUsername_rejects_password_trimmed_in_bcrypt_key_witness :
  isStrongPassword spaced_password = true
  /\ bcrypt_key (trim spaced_password) <> bcrypt_key spaced_password
  /\ Truncating.bob_created72 = (Return bob_returned, snd Truncating.bob_created72)
  /\ (forall name' w2,
        checkUserWithUsername (B := Truncating.bcrypt72) MemStore name' spaced_password
          (snd Truncating.bob_created72)
        <> (Return bob_returned, w2))
  /\ fst (checkUserWithUsername (B := Truncating.bcrypt72) MemStore "bob" spaced_password
            (snd Truncating.bob_created72))
     = Throw (ThrowMessage (userWithUsernameNotFound "CheckUserWithUsername" "bob")).
Proof.
  assert (Hp : isStrongPassword spaced_password = true) by (vm_compute; reflexivity).
  assert (Ht : bcrypt_key (trim spaced_password) <> bcrypt_key spaced_password)
    by (vm_compute; intros E; discriminate E).
  assert (Hrun : createUser (B := Truncating.bcrypt72) MemStore "bob@example.com" "bob"
                   spaced_password with_alice
                 = (Return bob_returned, snd Truncating.bob_created72))
    by (vm_compute; reflexivity).
  split; [exact Hp |]. split; [exact Ht |]. split; [exact Hrun |].
  destruct (@checkUserWithUsername_rejects_password_trimmed_in_bcrypt_key
              _ Truncating.bcrypt72 _ _ bcrypt72_sound_72
              "bob@example.com" "bob" spaced_password with_alice
              (snd Truncating.bob_created72) bob_returned
              store_inv_with_alice Hp Ht Hrun)
    as [_ [_ [Hnever Hthrow]]].
  split; [exact Hnever |].
  apply Hthrow. intros c Hin. vm_compute in Hin. destruct Hin as [Hc | []]. subst c.
  vm_compute. intros E. discriminate E.
Defined.

(** * The further properties at work on the scenario *)

Lemma store_inv_with_twins : store_inv (store with_twins).
Proof.
  apply (store_inv_insertOne (store with_alice) (set_id None twin_stored)).
  - exact store_inv_with_alice.
  - constructor.
Qed.

Lemma alice_created_Return :
  createUser MemStore alice_email " alice " alice_password nobody
  = (Return (set_id (Some (StrId alice_id)) alice_stored), with_alice).
Proof.
  vm_compute. reflexivity.
Qed.

(** X1 at work. *)
Lemma checkUserWithEmail_invalid_email_hashes_first_witness :
  isEmail (trim "not-an-email") = false
  /\ checkUserWithEmail MemStore "not-an-email" alice_password with_alice
     = (Throw (ThrowMessage (notValid "CreateUser" "not-an-email" FEmail)),
        {| store := store with_alice; drawn := 2;
           trace := (trace with_alice ++ [EvBcryptHash alice_password 16])%list |}).
Proof.
  assert (He : isEmail (trim "not-an-email") = false) by (vm_compute; reflexivity).
  split; [exact He |].
  exact (@checkUserWithEmail_invalid_email_hashes_first _ _ _ _ _ MemStore
           "not-an-email" alice_password with_alice He).
Defined.

(** X2 at work. *)
Lemma invalid_arguments_leave_world_untouched_witness :
  checkUserWithUsername MemStore "not a name" alice_password with_alice
  = (Throw (ThrowMessage (notValid "CheckUserWithUsername" "not a name" FUsername)),
     with_alice)
  /\ deleteUserById MemStore "123" with_alice
     = (Throw (ThrowMessage (objectIdNotValid "DeleteUserById" "123")), with_alice)
  /\ addArticleToAuthor MemStore "123" "xyz" with_alice
     = (Throw (ThrowMessage (objectIdNotValid "AddArticleToAuthor" "123")), with_alice)
  /\ addArticleToAuthor MemStore alice_id "xyz" with_alice
     = (Throw (ThrowMessage (objectIdNotValid "AddArticleToAuthor" "xyz")), with_alice).
Proof.
  destruct (@invalid_arguments_leave_world_untouched _ _ _ _ _ MemStore with_alice)
    as [Hname [Hdel [Huser Harticle]]].
  assert (H1 : isAlphanumeric (trim "not a name") = false) by (vm_compute; reflexivity).
  assert (H2 : ObjectId_isValid "123" = false) by (vm_compute; reflexivity).
  assert (H3 : ObjectId_isValid alice_id = true) by (vm_compute; reflexivity).
  assert (H4 : ObjectId_isValid "xyz" = false) by (vm_compute; reflexivity).
  split; [exact (Hname "not a name" alice_password H1) |].
  split; [exact (Hdel "123" H2) |].
  split; [exact (Huser "123" "xyz" H2) | exact (Harticle alice_id "xyz" H3 H4)].
Defined.

(** X3 at work: the record is in the collection and the caller is told it
    was not created. *)
Lemma createUser_unacknowledged_insert_throws_witness :
  fst (createUser UnackedStore alice_email "alice" alice_password nobody)
  = Throw (ThrowMessage (userNotCreated "CreateUser" alice_email))
  /\ docs (store (snd (createUser UnackedStore alice_email "alice" alice_password nobody)))
     = [alice_stored].
Proof.
  assert (He : isEmail (trim alice_email) = true) by (vm_compute; reflexivity).
  assert (Hn : isAlphanumeric (trim "alice") = true) by (vm_compute; reflexivity).
  assert (Hp : isStrongPassword alice_password = true) by (vm_compute; reflexivity).
  assert (Hfree : fst (coll_findOne UnackedStore (ByEmail (trim alice_email)) (store nobody))
                  = None) by (vm_compute; reflexivity).
  destruct (@createUser_unacknowledged_insert_throws _ _ _ _ _ UnackedStore
              alice_email "alice" alice_password nobody He Hn Hp Hfree
              (or_introl eq_refl))
    as [Hrun _].
  rewrite Hrun. split; vm_compute; reflexivity.
Defined.

(** X4 at work: two accounts under the username [alice]; the second one's
    password is verified against the first hash, then against the second. *)
Lemma checkUserWithUsername_scans_until_first_match_witness :
  isAlphanumeric (trim "alice") = true
  /\ checkUserWithUsername MemStore "alice" twin_password with_twins
     = (Return (set_id (Some (StrId twin_id)) twin_stored),
        {| store := store with_twins; drawn := 2;
           trace := (trace with_twins
                       ++ [EvGetUserCollection; EvFind (ByUsername "alice");
                           EvBcryptCompare twin_password (password alice_stored);
                           EvBcryptCompare twin_password (password twin_stored);
                           EvConsoleLog (validatedUserWithUsername
                                           "CheckUserWithUsername" "alice")])%list |})
  /\ fst (checkUserWithUsername MemStore "alice" "Wr0ng!pass" with_twins)
     = Throw (ThrowMessage (userWithUsernameNotFound "CheckUserWithUsername" "alice")).
Proof.
  assert (Hn : isAlphanumeric (trim "alice") = true) by (vm_compute; reflexivity).
  split; [exact Hn |]. split.
  - assert (Hfound : fst (coll_find MemStore (ByUsername (trim "alice")) (store with_twins))
                     = ([alice_stored] ++ twin_stored :: [])%list)
      by (vm_compute; reflexivity).
    assert (Hfail : forall d, In d [alice_stored] ->
                              checkpw (trim twin_password) (password d) = false).
    { intros d [Hd | []]. subst d. vm_compute. reflexivity. }
    assert (Hc : checkpw (trim twin_password) (password twin_stored) = true)
      by (vm_compute; reflexivity).
    exact (proj1 (@checkUserWithUsername_scans_until_first_match _ _ _ _ _ MemStore
                    "alice" twin_password with_twins Hn)
             [alice_stored] twin_stored [] Hfound Hfail Hc).
  - assert (Hfail : forall d,
               In d (fst (coll_find MemStore (ByUsername (trim "alice")) (store with_twins))) ->
               checkpw (trim "Wr0ng!pass") (password d) = false).
    { intros d Hd. vm_compute in Hd. destruct Hd as [Hd | [Hd | []]]; subst d;
        vm_compute; reflexivity. }
    rewrite (proj2 (@checkUserWithUsername_scans_until_first_match _ _ _ _ _ MemStore
                      "alice" "Wr0ng!pass" with_twins Hn) Hfail).
    reflexivity.
Defined.

(** X5 at work: two stored records are cleaned; with an object that has no
    [_id] among them the call fails. *)
Lemma cleanUserObjects_cleans_each_or_TypeError_witness :
  cleanUserObjects [alice_stored; twin_stored]
  = Return [set_id (Some (StrId alice_id)) alice_stored;
            set_id (Some (StrId twin_id)) twin_stored]
  /\ cleanUserObjects [alice_stored; unsaved; twin_stored] = Throw TypeError.
Proof.
  split.
  - apply (proj1 (@cleanUserObjects_cleans_each_or_TypeError _ [alice_stored; twin_stored])).
    constructor; [exists (ObjId 0%N); split; reflexivity |].
    constructor; [exists (ObjId 1%N); split; reflexivity | constructor].
  - apply (proj2 (proj2 (@cleanUserObjects_cleans_each_or_TypeError _
                           [alice_stored; unsaved; twin_stored]))).
    exists unsaved. split; [right; left; reflexivity | reflexivity].
Defined.

(** X6 at work. *)
Lemma getAllUsers_returns_every_record_cleaned_witness :
  store_inv (store with_twins)
  /\ exists rs,
       fst (getAllUsers MemStore with_twins) = Return rs
       /\ length rs = 2
       /\ store (snd (getAllUsers MemStore with_twins)) = store with_twins.
Proof.
  split; [exact store_inv_with_twins |].
  destruct (@getAllUsers_returns_every_record_cleaned _ _ with_twins store_inv_with_twins)
    as [rs [Hrun Hall]].
  exists rs. rewrite Hrun. split; [reflexivity |]. split; [| reflexivity].
  apply Forall2_length in Hall. rewrite <- Hall. reflexivity.
Defined.

(** X7 at work. *)
Lemma createUser_then_getUserById_round_trip_witness :
  ObjectId_isValid (toHexString 0%N) = true
  /\ ObjectId_new (toHexString 0%N) = 0%N
  /\ fst (getUserById MemStore alice_id with_alice)
     = Return (set_id (Some (StrId alice_id)) alice_stored).
Proof.
  assert (Hv : ObjectId_isValid (toHexString (nextId (store nobody))) = true)
    by (vm_compute; reflexivity).
  assert (Hnew : ObjectId_new (toHexString (nextId (store nobody))) = nextId (store nobody))
    by (vm_compute; reflexivity).
  split; [exact Hv |]. split; [exact Hnew |].
  exact (proj2 (@createUser_then_getUserById_round_trip _ _ _ _
                  alice_email " alice " alice_password nobody with_alice _
                  store_inv_empty alice_created_Return Hv Hnew)).
Defined.

(** X8 at work: the twin's identifier, before the twin exists. *)
Lemma absent_user_delete_and_addArticle_witness :
  ObjectId_isValid twin_id = true
  /\ fst (deleteUserById MemStore twin_id with_alice)
     = Throw (ThrowMessage (userNotFound "DeleteUserById" twin_id))
  /\ fst (addArticleToAuthor MemStore twin_id article_id with_alice)
     = Throw (ThrowMessage (articleNotAddedToUser "AddArticleToAuthor" twin_id article_id))
  /\ store (snd (addArticleToAuthor MemStore twin_id article_id with_alice))
     = store with_alice.
Proof.
  assert (Hok : ObjectId_isValid twin_id = true) by (vm_compute; reflexivity).
  assert (Ha : ObjectId_isValid article_id = true) by (vm_compute; reflexivity).
  assert (Habs : forall u, In u (docs (store with_alice)) ->
                           _id u <> Some (ObjId (ObjectId_new twin_id))).
  { intros u Hin. vm_compute in Hin. destruct Hin as [Hu | []]. subst u.
    vm_compute. intros E. discriminate E. }
  destruct (@absent_user_delete_and_addArticle _ _ twin_id with_alice Hok Habs)
    as [Hdel Hadd].
  split; [exact Hok |]. rewrite Hdel, (Hadd article_id Ha).
  split; [reflexivity |]. split; reflexivity.
Defined.

(** X9 at work. *)
Lemma addArticleToAuthor_appends_and_returns_updated_witness :
  ~ In article_id (articles alice_stored)
  /\ exists w',
       addArticleToAuthor MemStore alice_id article_id with_alice
       = (Return (set_id (Some (StrId alice_id))
                    (set_articles [article_id] alice_stored)), w')
       /\ fst (getUserById MemStore alice_id w')
          = Return (set_id (Some (StrId alice_id))
                      (set_articles [article_id] alice_stored))
       /\ store_inv (store w').
Proof.
  assert (Hnew : ~ In article_id (articles alice_stored)) by (intros []).
  assert (Hu : ObjectId_isValid alice_id = true) by (vm_compute; reflexivity).
  assert (Ha : ObjectId_isValid article_id = true) by (vm_compute; reflexivity).
  assert (Hin : In alice_stored (docs (store with_alice))) by (left; reflexivity).
  assert (Hid : _id alice_stored = Some (ObjId (ObjectId_new alice_id)))
    by (vm_compute; reflexivity).
  split; [exact Hnew |].
  destruct (@addArticleToAuthor_appends_and_returns_updated _ _
              alice_id article_id with_alice alice_stored
              store_inv_with_alice Hu Ha Hin Hid Hnew)
    as [w' [l1 [l2 [Hrun [_ [_ [Hget Hinv]]]]]]].
  exists w'. split; [exact Hrun |]. split; [exact Hget | exact Hinv].
Defined.

(** X10 at work: Alice's record is validated, and so are the records after
    Bob is created and after Alice gets an article. *)
Lemma writers_keep_records_validated_witness :
  validated alice_stored
  /\ (forall u,
        In u (docs (store (snd (createUser MemStore "bob@example.com" "bob"
                                  alice_password with_alice)))) -> validated u)
  /\ (forall u,
        In u (docs (store (snd (addArticleToAuthor MemStore alice_id article_id
                                  with_alice)))) -> validated u).
Proof.
  assert (Halice : validated alice_stored).
  { split; [vm_compute; reflexivity |]. split; [vm_compute; reflexivity |].
    split; [| constructor].
    exists "A", alice_password. split; vm_compute; reflexivity. }
  assert (Hall : forall u, In u (docs (store with_alice)) -> validated u).
  { intros u [Hu | []]. subst u. exact Halice. }
  destruct (@writers_keep_records_validated _ _ _ _ with_alice Hall)
    as [Hcreate [_ Hadd]].
  split; [exact Halice |].
  split; [apply Hcreate | apply Hadd].
Defined.

(** X12 at work. *)
Lemma writers_keep_emails_unique_witness :
  NoDup (map email (docs (store with_alice)))
  /\ NoDup (map email (docs (store (snd (createUser MemStore "twin@example.com" "alice"
                                           twin_password with_alice)))))
  /\ NoDup (map email (docs (store (snd (createUser MemStore alice_email "alice2"
                                           "0ther!Pass" with_alice))))).
Proof.
  assert (Hnd : NoDup (map email (docs (store with_alice)))).
  { vm_compute. constructor; [intros [] | constructor]. }
  destruct (@writers_keep_emails_unique _ _ _ _ with_alice Hnd) as [Hcreate _].
  split; [exact Hnd |]. split; apply Hcreate.
Defined.

(** X13 at work. *)
Lemma createUser_then_checkUserWithUsername_returns_user_witness :
  trim alice_password = alice_password
  /\ fst (checkUserWithUsername MemStore " alice " alice_password with_alice)
     = Return (set_id (Some (StrId alice_id)) alice_stored).
Proof.
  assert (Ht : trim alice_password = alice_password) by (vm_compute; reflexivity).
  split; [exact Ht |].
  apply (@createUser_then_checkUserWithUsername_returns_user _ _ _ _
           ref_checkpw_complete alice_email " alice " alice_password nobody with_alice _
           store_inv_empty alice_created_Return Ht).
  intros c [].
Defined.

(** X14 at work: Alice's stored hash, typed in as the password. *)
Lemma checkUserWithEmail_accepts_the_returned_hash_witness :
  fst (checkUserWithEmail MemStore alice_email "$2b$16$APassw0rd!" with_alice)
  = Return (set_id (Some (StrId alice_id)) alice_stored).
Proof.
  assert (Ht : trim (password (set_id (Some (StrId alice_id)) alice_stored))
               = password (set_id (Some (StrId alice_id)) alice_stored))
    by (vm_compute; reflexivity).
  exact (@checkUserWithEmail_accepts_the_returned_hash _ _ _ _
           ref_checkpw_complete alice_email " alice " alice_password nobody with_alice _
           store_inv_empty alice_created_Return Ht).
Defined.

(** X15 at work: Alice is deleted, or gets an article; the twin is as before. *)
Lemma writes_leave_other_users_alone_witness :
  ObjectId_new twin_id <> ObjectId_new alice_id
  /\ fst (getUserById MemStore twin_id (snd (deleteUserById MemStore alice_id with_twins)))
     = Return (set_id (Some (StrId twin_id)) twin_stored)
  /\ fst (getUserById MemStore twin_id
            (snd (addArticleToAuthor MemStore alice_id article_id with_twins)))
     = Return (set_id (Some (StrId twin_id)) twin_stored).
Proof.
  assert (Hne : ObjectId_new twin_id <> ObjectId_new alice_id)
    by (vm_compute; intros E; discriminate E).
  destruct (@writes_leave_other_users_alone _ _ alice_id twin_id with_twins Hne)
    as [Hdel Hadd].
  split; [exact Hne |]. rewrite Hdel, (Hadd article_id).
  split; vm_compute; reflexivity.
Defined.

(** X16 at work. *)
Lemma createUser_twice_same_email_conflicts_witness :
  exists w2,
    createUser MemStore alice_email "alice2" "0ther!Pass" with_alice
    = (Throw (ThrowMessage (userWithEmailAlreadyExists "CreateUser" alice_email)), w2)
    /\ store w2 = store with_alice.
Proof.
  assert (Hn : isAlphanumeric (trim "alice2") = true) by (vm_compute; reflexivity).
  assert (Hp : isStrongPassword "0ther!Pass" = true) by (vm_compute; reflexivity).
  exact (@createUser_twice_same_email_conflicts _ _ _ _
           alice_email " alice " alice_password "alice2" "0ther!Pass" nobody with_alice _
           store_inv_empty alice_created_Return Hn Hp).
Defined.

(** X17 at work: Alice leaves and comes back. *)
Lemma deleteUserById_frees_the_email_witness :
  exists r w2,
    createUser MemStore alice_email "alice" alice_password
      (snd (deleteUserById MemStore alice_id with_alice))
    = (Return r, w2)
    /\ email r = alice_email /\ username r = "alice".
Proof.
  assert (Hnd : NoDup (map email (docs (store with_alice)))).
  { vm_compute. constructor; [intros [] | constructor]. }
  assert (Hok : ObjectId_isValid alice_id = true) by (vm_compute; reflexivity).
  assert (Hin : In alice_stored (docs (store with_alice))) by (left; reflexivity).
  assert (Hid : _id alice_stored = Some (ObjId (ObjectId_new alice_id)))
    by (vm_compute; reflexivity).
  assert (Hem : email alice_stored = trim alice_email) by (vm_compute; reflexivity).
  assert (He : isEmail (trim alice_email) = true) by (vm_compute; reflexivity).
  assert (Hn : isAlphanumeric (trim "alice") = true) by (vm_compute; reflexivity).
  assert (Hp : isStrongPassword alice_password = true) by (vm_compute; reflexivity).
  exact (@deleteUserById_frees_the_email _ _ _ _
           alice_id alice_email "alice" alice_password with_alice alice_stored
           store_inv_with_alice Hnd Hok Hin Hid Hem He Hn Hp).
Defined.
